(** * BMP280 over SPI: a shallow embedding of [BMP280.py]

    The driver talks to the sensor through one primitive of the SPI port,
    [exchange(out, readlen)].  The port is modelled as an arbitrary device
    (a state and a response function); every exchange and every [sleep] is
    appended to a log, so that protocol properties can be stated on the log.
    Python [float] is IEEE binary64, modelled by Rocq's primitive floats;
    Python [int] is [Z]. *)

From Stdlib Require Import ZArith List String Bool Lia Floats.
Import ListNotations.

Set Warnings "-inexact-float".

Local Open Scope Z_scope.

(** ** Exceptions and outcomes *)

Inductive exn : Type :=
| RuntimeError (msg : string)
| TypeError
| IndexError
| ValueError
| OverflowError
| ZeroDivisionError
| SpiIOError.

(** The outcome of running a piece of the driver: a value, a raised
    exception, or [Diverge] when the polling loop is still running after
    the number of iterations the model was given. *)
Inductive outcome (A : Type) : Type :=
| Ok (a : A)
| Raise (e : exn)
| Diverge.

Arguments Ok {A} a.
Arguments Raise {A} e.
Arguments Diverge {A}.

(** A computation over a mutable state [S].  The state is returned in every
    case: an exception does not undo the assignments made before it. *)
Definition M (S A : Type) : Type := S -> outcome A * S.

Definition ret {S A} (a : A) : M S A := fun s => (Ok a, s).

Definition bind {S A B} (c : M S A) (k : A -> M S B) : M S B :=
  fun s =>
    match c s with
    | (Ok a, s') => k a s'
    | (Raise e, s') => (Raise e, s')
    | (Diverge, s') => (Diverge, s')
    end.

Definition raise {S A} (e : exn) : M S A := fun s => (Raise e, s).

Definition diverge {S A} : M S A := fun s => (Diverge, s).

Definition lift {S A} (o : outcome A) : M S A := fun s => (o, s).

Declare Scope py_scope.
Delimit Scope py_scope with py.

Notation "x <- c ;; k" := (bind c (fun x => k))
  (at level 61, c at next level, right associativity) : py_scope.
Notation "c ;;; k" := (bind c (fun _ => k))
  (at level 61, right associativity) : py_scope.

(** ** Python numeric primitives *)

(** [float(z)] and the implicit conversion of an [int] operand in mixed
    arithmetic: correctly rounded, [OverflowError] when out of range. *)
Definition py_float (z : Z) : outcome float :=
  match binary_normalize prec emax z 0 false with
  | S754_infinity _ => Raise OverflowError
  | sf => Ok (SF2Prim sf)
  end.

(** [int(x)]: truncation toward zero; [nan] and the infinities raise. *)
Definition py_int (x : float) : outcome Z :=
  match Prim2SF x with
  | S754_nan => Raise ValueError
  | S754_infinity _ => Raise OverflowError
  | S754_zero _ => Ok 0
  | S754_finite s m e =>
      let mag := Z.shiftl (Z.pos m) e in
      Ok (if s then - mag else mag)
  end.

(** [a / b] on floats: Python raises on a zero divisor. *)
Definition py_truediv (a b : float) : outcome float :=
  if (b =? 0)%float then Raise ZeroDivisionError else Ok (a / b)%float.

(** [data[i]] on a sequence of bytes. *)
Definition py_index (data : list Z) (i : nat) : outcome Z :=
  match nth_error data i with
  | Some b => Ok b
  | None => Raise IndexError
  end.

(** ** Register map: [class REG(IntEnum)] *)

Module REG.
Definition ID : Z := 0xD0.
Definition ID_VAL : Z := 0x58.
Definition STATUS : Z := 0xF3.
Definition CONTROL : Z := 0xF4.
Definition CONFIG : Z := 0xF5.
Definition TEMP_MSB : Z := 0xFA.
Definition PRESS_MSB : Z := 0xF7.
Definition T1 : Z := 0x88.
Definition T2 : Z := 0x8A.
Definition T3 : Z := 0x8C.
Definition P1 : Z := 0x8E.
Definition P2 : Z := 0x90.
Definition P3 : Z := 0x92.
Definition P4 : Z := 0x94.
Definition P5 : Z := 0x96.
Definition P6 : Z := 0x98.
Definition P7 : Z := 0x9A.
Definition P8 : Z := 0x9C.
Definition P9 : Z := 0x9E.
End REG.

(** ** The driver object *)

(** The attributes of a constructed [BMP280SPI] (the port is kept apart,
    in the bus state).  [_temp] and [_press] start as [None]. *)
Record driver : Type := mkDriver {
  _temp : option float;
  _press : option float;
  _dig_T1 : float; _dig_T2 : float; _dig_T3 : float;
  _dig_P1 : float; _dig_P2 : float; _dig_P3 : float;
  _dig_P4 : float; _dig_P5 : float; _dig_P6 : float;
  _dig_P7 : float; _dig_P8 : float; _dig_P9 : float
}.

Definition set_temp (t : option float) (d : driver) : driver :=
  mkDriver t (_press d)
    (_dig_T1 d) (_dig_T2 d) (_dig_T3 d)
    (_dig_P1 d) (_dig_P2 d) (_dig_P3 d) (_dig_P4 d) (_dig_P5 d)
    (_dig_P6 d) (_dig_P7 d) (_dig_P8 d) (_dig_P9 d).

Definition set_press (p : option float) (d : driver) : driver :=
  mkDriver (_temp d) p
    (_dig_T1 d) (_dig_T2 d) (_dig_T3 d)
    (_dig_P1 d) (_dig_P2 d) (_dig_P3 d) (_dig_P4 d) (_dig_P5 d)
    (_dig_P6 d) (_dig_P7 d) (_dig_P8 d) (_dig_P9 d).

(** The twelve coefficients of a driver, in the order of [comp]. *)
Definition coefficients (d : driver) : list float :=
  [_dig_T1 d; _dig_T2 d; _dig_T3 d;
   _dig_P1 d; _dig_P2 d; _dig_P3 d; _dig_P4 d; _dig_P5 d;
   _dig_P6 d; _dig_P7 d; _dig_P8 d; _dig_P9 d].

(** What [read] returns: the bare integer of the early return, or the pair
    [(self._temp, self._press)]. *)
Inductive retval : Type :=
| RInt (z : Z)
| RPair (t p : option float).

(** What happens on the bus and the clock, in order. *)
Inductive event : Type :=
| Xfer (out : list Z) (readlen : Z)
| Sleep (seconds : float).

Section Driver.

(** The SPI port: a device state and its answer to one exchange;
    [None] is a transport failure. *)
Variable Dev : Type.
Variable xchg : Dev -> list Z -> Z -> option (list Z) * Dev.

Record bus : Type := mkBus { dev : Dev; log : list event }.

Local Open Scope py_scope.

(** [self._spi.exchange(out, readlen)] *)
Definition exchange (out : list Z) (readlen : Z) : M bus (list Z) :=
  fun b =>
    let (r, dv) := xchg (dev b) out readlen in
    let b' := mkBus dv (log b ++ [Xfer out readlen]) in
    match r with
    | Some data => (Ok data, b')
    | None => (Raise SpiIOError, b')
    end.

(** [sleep(seconds)] *)
Definition sleep (seconds : float) : M bus unit :=
  fun b => (Ok tt, mkBus (dev b) (log b ++ [Sleep seconds])).

Definition _readU8 (register : Z) : M bus Z :=
  data <- exchange [Z.lor register 0x80] 1 ;;
  lift (py_index data 0).

Definition _readU16 (register : Z) : M bus Z :=
  data <- exchange [Z.lor register 0x80] 2 ;;
  hi <- lift (py_index data 1) ;;
  lo <- lift (py_index data 0) ;;
  ret (Z.lor (Z.shiftl hi 8) lo).

Definition _readS16 (register : Z) : M bus Z :=
  result <- _readU16 register ;;
  ret (if result >? 32767 then result - 65536 else result).

Definition _readU24 (register : Z) : M bus float :=
  data <- exchange [Z.lor register 0x80] 3 ;;
  b0 <- lift (py_index data 0) ;;
  b1 <- lift (py_index data 1) ;;
  b2 <- lift (py_index data 2) ;;
  lift (py_float
          (Z.shiftr (Z.lor (Z.lor (Z.shiftl b0 16) (Z.shiftl b1 8)) b2) 4)).

(** [BMP280SPI.__init__]: the identity check, then the twelve
    coefficients, each read by a transaction of its own. *)
Definition __init__ : M bus driver :=
  id <- _readU8 REG.ID ;;
  if negb (id =? REG.ID_VAL) then raise (RuntimeError "Not a BMP280") else
  t1 <- _readU16 REG.T1 ;; dig_T1 <- lift (py_float t1) ;;
  t2 <- _readS16 REG.T2 ;; dig_T2 <- lift (py_float t2) ;;
  t3 <- _readS16 REG.T3 ;; dig_T3 <- lift (py_float t3) ;;
  p1 <- _readU16 REG.P1 ;; dig_P1 <- lift (py_float p1) ;;
  p2 <- _readS16 REG.P2 ;; dig_P2 <- lift (py_float p2) ;;
  p3 <- _readS16 REG.P3 ;; dig_P3 <- lift (py_float p3) ;;
  p4 <- _readS16 REG.P4 ;; dig_P4 <- lift (py_float p4) ;;
  p5 <- _readS16 REG.P5 ;; dig_P5 <- lift (py_float p5) ;;
  p6 <- _readS16 REG.P6 ;; dig_P6 <- lift (py_float p6) ;;
  p7 <- _readS16 REG.P7 ;; dig_P7 <- lift (py_float p7) ;;
  p8 <- _readS16 REG.P8 ;; dig_P8 <- lift (py_float p8) ;;
  p9 <- _readS16 REG.P9 ;; dig_P9 <- lift (py_float p9) ;;
  ret (mkDriver None None dig_T1 dig_T2 dig_T3
         dig_P1 dig_P2 dig_P3 dig_P4 dig_P5 dig_P6 dig_P7 dig_P8 dig_P9).

(** *** Methods of a constructed driver

    They run on the pair of the bus and the object [self]. *)

Definition on_spi {A} (c : M bus A) : M (bus * driver) A :=
  fun st =>
    let (r, b') := c (fst st) in (r, (b', snd st)).

Definition get_self : M (bus * driver) driver :=
  fun st => (Ok (snd st), st).

Definition modify_self (f : driver -> driver) : M (bus * driver) unit :=
  fun st => (Ok tt, (fst st, f (snd st))).

(** The property [comp]: a fresh dict, in insertion order. *)
Definition comp : M (bus * driver) (list (string * float)) :=
  self <- get_self ;;
  ret [("dig_T1"%string, _dig_T1 self); ("dig_T2"%string, _dig_T2 self);
       ("dig_T3"%string, _dig_T3 self); ("dig_P1"%string, _dig_P1 self);
       ("dig_P2"%string, _dig_P2 self); ("dig_P3"%string, _dig_P3 self);
       ("dig_P4"%string, _dig_P4 self); ("dig_P5"%string, _dig_P5 self);
       ("dig_P6"%string, _dig_P6 self); ("dig_P7"%string, _dig_P7 self);
       ("dig_P8"%string, _dig_P8 self); ("dig_P9"%string, _dig_P9 self)].

Definition temperature : M (bus * driver) (option float) :=
  self <- get_self ;; ret (_temp self).

Definition pressure : M (bus * driver) (option float) :=
  self <- get_self ;; ret (_press self).

(** [1000*(self._press/1.013e2)]: dividing [None] is a [TypeError]. *)
Definition mbar : M (bus * driver) float :=
  self <- get_self ;;
  match _press self with
  | None => raise TypeError
  | Some press =>
      q <- lift (py_truediv press 1.013e2%float) ;;
      ret (1000 * q)%float
  end.

(** The loop [while self._readU8(REG.STATUS) & 0x08: sleep(0.01)];
    [fuel] bounds the number of status reads. *)
Fixpoint poll (fuel : nat) : M bus unit :=
  match fuel with
  | O => diverge
  | S fuel' =>
      status <- _readU8 REG.STATUS ;;
      if negb (Z.land status 0x08 =? 0)
      then sleep 0.01%float ;;; poll fuel'
      else ret tt
  end.

Local Open Scope float_scope.

(** [BMP280SPI.read].  The divisions by the literal constants are the
    primitive ones (see [py_truediv_literal]), the integer literal 6250
    is converted exactly; the division by the
    variable [var1] is the checked one. *)
Definition read (fuel : nat) : M (bus * driver) retval :=
  on_spi (exchange [Z.land REG.CONTROL (Z.lnot 0x80); 0xFE%Z] 0%Z) ;;;
  on_spi (poll fuel) ;;;
  UT <- on_spi (_readU24 REG.TEMP_MSB) ;;
  self <- get_self ;;
  let var1 := (UT / 16384.0 - _dig_T1 self / 1024.0) * _dig_T2 self in
  let var2 := ((UT / 131072.0 - _dig_T1 self / 8192.0) *
               (UT / 131072.0 - _dig_T1 self / 8192.0)) * _dig_T3 self in
  t_fine <- lift (py_int (var1 + var2)) ;;
  tf <- lift (py_float t_fine) ;;
  modify_self (set_temp (Some (tf / 5120.0))) ;;;
  UP <- on_spi (_readU24 REG.PRESS_MSB) ;;
  self <- get_self ;;
  tf <- lift (py_float t_fine) ;;
  let var1 := tf / 2.0 - 64000.0 in
  let var2 := var1 * var1 * _dig_P6 self / 32768.0 in
  let var2 := var2 + var1 * _dig_P5 self * 2.0 in
  let var2 := var2 / 4.0 + _dig_P4 self * 65536.0 in
  let var1 := (_dig_P3 self * var1 * var1 / 534288.0 +
               _dig_P2 self * var1) / 534288.0 in
  let var1 := (1.0 + var1 / 32768.0) * _dig_P1 self in
  if var1 =? 0.0 then ret (RInt 0) else
  let p := 1048576.0 - UP in
  p <- lift (py_truediv ((p - var2 / 4096.0) * 6250) var1) ;;
  let var1 := _dig_P9 self * p * p / 2147483648.0 in
  let var2 := p * _dig_P8 self / 32768.0 in
  let p := p + (var1 + var2 + _dig_P7 self) / 16.0 in
  modify_self (set_press (Some p)) ;;;
  self <- get_self ;;
  ret (RPair (_temp self) (_press self)).

End Driver.

Arguments mkBus {Dev} dev log.
Arguments dev {Dev} b.
Arguments log {Dev} b.
Arguments exchange {Dev} xchg out readlen _.
Arguments sleep {Dev} seconds _.
Arguments _readU8 {Dev} xchg register _.
Arguments _readU16 {Dev} xchg register _.
Arguments _readS16 {Dev} xchg register _.
Arguments _readU24 {Dev} xchg register _.
Arguments __init__ {Dev} xchg _.
Arguments on_spi {Dev A} c _.
Arguments get_self {Dev} _.
Arguments modify_self {Dev} f _.
Arguments comp {Dev} _.
Arguments temperature {Dev} _.
Arguments pressure {Dev} _.
Arguments mbar {Dev} _.
Arguments poll {Dev} xchg fuel _.
Arguments read {Dev} xchg fuel _.

(** ** Named parts of [read]

    The intermediate values of [read], as functions of what they depend on,
    for use in statements; [read_cases] below relates
    them to [read] itself. *)

Section Compensation.
Local Open Scope float_scope.

(** [var1 + var2] of the temperature part, the argument of [int]. *)
Definition temp_sum (self : driver) (UT : float) : float :=
  let var1 := (UT / 16384.0 - _dig_T1 self / 1024.0) * _dig_T2 self in
  let var2 := ((UT / 131072.0 - _dig_T1 self / 8192.0) *
               (UT / 131072.0 - _dig_T1 self / 8192.0)) * _dig_T3 self in
  var1 + var2.

(** [var2] of the pressure part where the guard is reached; [tf] is
    [t_fine] as a float. *)
Definition guard_var2 (self : driver) (tf : float) : float :=
  let var1 := tf / 2.0 - 64000.0 in
  let var2 := var1 * var1 * _dig_P6 self / 32768.0 in
  let var2 := var2 + var1 * _dig_P5 self * 2.0 in
  var2 / 4.0 + _dig_P4 self * 65536.0.

(** [var1] of the pressure part where the guard [var1 == 0.0] tests it. *)
Definition guard_var1 (self : driver) (tf : float) : float :=
  let var1 := tf / 2.0 - 64000.0 in
  let var1 := (_dig_P3 self * var1 * var1 / 534288.0 +
               _dig_P2 self * var1) / 534288.0 in
  (1.0 + var1 / 32768.0) * _dig_P1 self.

(** The pressure computed after the guard, with the primitive division. *)
Definition pressure_after_guard (self : driver) (tf UP : float) : float :=
  let p := 1048576.0 - UP in
  let p := ((p - guard_var2 self tf / 4096.0) * 6250) / guard_var1 self tf in
  let var1 := _dig_P9 self * p * p / 2147483648.0 in
  let var2 := p * _dig_P8 self / 32768.0 in
  p + (var1 + var2 + _dig_P7 self) / 16.0.

(** [x] is within [tol] of [ref], in double precision. *)
Definition within (tol x ref : float) : bool := abs (x - ref) <? tol.

End Compensation.

(** The temperature inside a value returned by [read], if there is one. *)
Definition returned_temperature (rv : retval) : option float :=
  match rv with
  | RInt _ => None
  | RPair t _ => t
  end.

(** The raw sample a three-byte burst stands for. *)
Definition raw20 (b0 b1 b2 : Z) : Z :=
  Z.shiftr (Z.lor (Z.lor (Z.shiftl b0 16) (Z.shiftl b1 8)) b2) 4.

Definition byte (b : Z) : Prop := 0 <= b <= 255.

(** ** Sequences of calls on a constructed driver *)

Inductive call : Type :=
| CallRead (fuel : nat)
| CallTemperature
| CallPressure
| CallMbar
| CallComp.

Section Calls.
Variable Dev : Type.
Variable xchg : Dev -> list Z -> Z -> option (list Z) * Dev.

(** The state after one call, whatever its outcome (the caller may catch
    an exception and go on). *)
Definition run_call (c : call) (st : bus Dev * driver) : bus Dev * driver :=
  match c with
  | CallRead fuel => snd (read xchg fuel st)
  | CallTemperature => snd (temperature st)
  | CallPressure => snd (pressure st)
  | CallMbar => snd (mbar st)
  | CallComp => snd (comp st)
  end.

Definition run_calls (cs : list call) (st : bus Dev * driver)
  : bus Dev * driver :=
  fold_left (fun st c => run_call c st) cs st.

(** The status register of the device in state [dv] reports "measuring"
    (bit 0x08) for the next [N] status reads and "ready" on the one after,
    which leaves the device in state [dv']. *)
Inductive measuring_for : nat -> Dev -> Dev -> Prop :=
| measuring_done dv dv' status rest :
    xchg dv [0xF3] 1 = (Some (status :: rest), dv') ->
    Z.land status 0x08 = 0 ->
    measuring_for O dv dv'
| measuring_more N dv dv1 dv' status rest :
    xchg dv [0xF3] 1 = (Some (status :: rest), dv1) ->
    Z.land status 0x08 <> 0 ->
    measuring_for N dv1 dv' ->
    measuring_for (S N) dv dv'.

End Calls.

Arguments run_call {Dev} xchg c st.
Arguments run_calls {Dev} xchg cs st.
Arguments measuring_for {Dev} xchg _ _ _.

(** The events of [N] polls that found the sensor measuring. *)
Fixpoint polling (N : nat) : list event :=
  match N with
  | O => []
  | S N' => Xfer [0xF3] 1 :: Sleep 0.01%float :: polling N'
  end.

(** The number of status reads in a log. *)
Fixpoint status_reads (l : list event) : nat :=
  match l with
  | [] => O
  | Xfer [cmd] _ :: l' => (if cmd =? 0xF3 then 1 else 0) + status_reads l'
  | _ :: l' => status_reads l'
  end.

(** ** A scripted sensor

    A device for concrete runs: it answers the identity register with
    [mock_id], a coefficient register with the two bytes [mock_coeff] gives
    for its command byte, the status register with the next byte of
    [mock_status] (with [mock_idle] once the script is used up), and the
    two data registers with fixed bursts.  A write returns no byte. *)

Module Mock.

Record t : Type := mk {
  mock_id : Z;
  mock_coeff : Z -> list Z;
  mock_status : list Z;
  mock_idle : Z;
  mock_temp : list Z;
  mock_press : list Z
}.

Definition next_status (m : t) : t :=
  mk (mock_id m) (mock_coeff m) (tl (mock_status m)) (mock_idle m)
     (mock_temp m) (mock_press m).

Definition xchg (m : t) (out : list Z) (readlen : Z) : option (list Z) * t :=
  match out with
  | [cmd] =>
      if cmd =? 0xD0 then (Some [mock_id m], m)
      else if cmd =? 0xF3 then
        (Some [hd (mock_idle m) (mock_status m)], next_status m)
      else if cmd =? 0xFA then (Some (mock_temp m), m)
      else if cmd =? 0xF7 then (Some (mock_press m), m)
      else (Some (mock_coeff m cmd), m)
  | _ => (Some [], m)
  end.

(** The two bytes of a 16-bit register holding [v], low byte first. *)
Definition le16 (v : Z) : list Z := [v mod 256; (v / 256) mod 256].

(** The three bytes of a data register holding the 20-bit sample [u]. *)
Definition be20 (u : Z) : list Z :=
  [(u / 4096) mod 256; (u / 16) mod 256; (u mod 16) * 16].

(** The calibration set and raw samples of the data sheet's worked
    example. *)
Definition datasheet_coeff (cmd : Z) : list Z :=
  le16 (if cmd =? 0x88 then 27504 else if cmd =? 0x8A then 26435
        else if cmd =? 0x8C then -1000 else if cmd =? 0x8E then 36477
        else if cmd =? 0x90 then -10685 else if cmd =? 0x92 then 3024
        else if cmd =? 0x94 then 2855 else if cmd =? 0x96 then 140
        else if cmd =? 0x98 then -7 else if cmd =? 0x9A then 15500
        else if cmd =? 0x9C then -14600 else if cmd =? 0x9E then 6000
        else 0).

Definition datasheet (id : Z) (status : list Z) : t :=
  mk id datasheet_coeff status 0 (be20 519888) (be20 415148).

(** A fresh bus on the data sheet's sensor. *)
Definition fresh (id : Z) (status : list Z) : bus t :=
  mkBus (datasheet id status) [].

End Mock.

(** The driver holding the data sheet's calibration set, before any read. *)
Definition datasheet_driver : driver :=
  mkDriver None None 27504 26435 (-1000)
    36477 (-10685) 3024 2855 140 (-7) 15500 (-14600) 6000.

(** The same with [dig_P1 = 0], which makes the guarded [var1] zero, and
    with a pressure cached by an earlier read. *)
Definition degenerate_driver : driver :=
  mkDriver (Some 20%float) (Some 99000%float) 27504 26435 (-1000)
    0 (-10685) 3024 2855 140 (-7) 15500 (-14600) 6000.

(** ** Predicates on computations *)

(** The drivers [d] and [d'] hold the same calibration set. *)
Definition same_calibration (d d' : driver) : Prop :=
  coefficients d' = coefficients d.

(** The computation [c] leaves the calibration set of the driver alone,
    whatever its outcome. *)
Definition cache_only {Dev A} (c : M (bus Dev * driver) A) : Prop :=
  forall st, same_calibration (snd st) (snd (snd (c st))).

(** The computation [c] never ends by raising [e]. *)
Definition never_raises {S A} (e : exn) (c : M S A) : Prop :=
  forall s, fst (c s) <> Raise e.

(** Whenever [c] returns a value, [Q] holds of it and of the state. *)
Definition ensures {S A} (Q : A -> S -> Prop) (c : M S A) : Prop :=
  forall s, match c s with (Ok a, s') => Q a s' | _ => True end.

(** A returned pair is the pair of the cached values. *)
Definition agrees_with_cache (rv : retval) (d : driver) : Prop :=
  match rv with
  | RInt _ => True
  | RPair t p => _temp d = t /\ _press d = p
  end.

(** The two bytes that trigger one forced measurement. *)
Definition trigger : list Z := [Z.land REG.CONTROL (Z.lnot 0x80); 0xFE].

(** The coefficient registers, in the order [__init__] reads them. *)
Definition coefficient_registers : list Z :=
  [REG.T1; REG.T2; REG.T3; REG.P1; REG.P2; REG.P3; REG.P4; REG.P5; REG.P6;
   REG.P7; REG.P8; REG.P9].

(** ** The stages of [read]

    [read] as one case analysis on what each of its stages gives: the
    trigger write, the polling loop, the temperature burst, [int] and
    [float] of the temperature part, the pressure burst, the guard.
    [read_unfold] below proves it equal to [read]. *)

Section Stages.
Variable Dev : Type.
Variable xchg : Dev -> list Z -> Z -> option (list Z) * Dev.

Definition pressure_stage (b3 : bus Dev) (d : driver) (tf : float)
  : outcome retval * (bus Dev * driver) :=
  let cached := set_temp (Some (tf / 5120.0)%float) d in
  match _readU24 xchg REG.PRESS_MSB b3 with
  | (Ok UP, b4) =>
      if (guard_var1 d tf =? 0)%float
      then (Ok (RInt 0), (b4, cached))
      else
        let p := pressure_after_guard d tf UP in
        (Ok (RPair (Some (tf / 5120.0)%float) (Some p)),
         (b4, set_press (Some p) cached))
  | (Raise e, b4) => (Raise e, (b4, cached))
  | (Diverge, b4) => (Diverge, (b4, cached))
  end.

Definition temperature_stage (b2 : bus Dev) (d : driver)
  : outcome retval * (bus Dev * driver) :=
  match _readU24 xchg REG.TEMP_MSB b2 with
  | (Ok UT, b3) =>
      match py_int (temp_sum d UT) with
      | Ok t_fine =>
          match py_float t_fine with
          | Ok tf => pressure_stage b3 d tf
          | Raise e => (Raise e, (b3, d))
          | Diverge => (Diverge, (b3, d))
          end
      | Raise e => (Raise e, (b3, d))
      | Diverge => (Diverge, (b3, d))
      end
  | (Raise e, b3) => (Raise e, (b3, d))
  | (Diverge, b3) => (Diverge, (b3, d))
  end.

Definition read_stages (fuel : nat) (b : bus Dev) (d : driver)
  : outcome retval * (bus Dev * driver) :=
  match exchange xchg trigger 0 b with
  | (Ok _, b1) =>
      match poll xchg fuel b1 with
      | (Ok _, b2) => temperature_stage b2 d
      | (Raise e, b2) => (Raise e, (b2, d))
      | (Diverge, b2) => (Diverge, (b2, d))
      end
  | (Raise e, b1) => (Raise e, (b1, d))
  | (Diverge, b1) => (Diverge, (b1, d))
  end.

(** The sensor reports "measuring" in state [dv] and in every state a
    status read can lead to from there. *)
Definition stuck_measuring (I : Dev -> Prop) : Prop :=
  forall dv, I dv ->
    exists status rest dv',
      xchg dv [0xF3] 1 = (Some (status :: rest), dv')
      /\ Z.land status 0x08 <> 0 /\ I dv'.

(** In every state satisfying [I] the device answers the identity register
    with the byte [id] and each coefficient register [r] with the two bytes
    of [regs r], low byte first, and stays in [I]. *)
Definition register_file (I : Dev -> Prop) (id : Z) (regs : Z -> Z) : Prop :=
  (forall dv, I dv ->
     exists dv', xchg dv [0xD0] 1 = (Some [id], dv') /\ I dv')
  /\ (forall dv r, I dv -> In r coefficient_registers ->
        exists dv',
          xchg dv [Z.lor r 0x80] 2
          = (Some [regs r mod 256; (regs r / 256) mod 256], dv')
          /\ I dv').

End Stages.

Arguments pressure_stage {Dev} xchg b3 d tf.
Arguments temperature_stage {Dev} xchg b2 d.
Arguments read_stages {Dev} xchg fuel b d.
Arguments stuck_measuring {Dev} xchg I.
Arguments register_file {Dev} xchg I id regs.

(** What [read] does to the cache, by what it returns: a pair is the pair
    of the two new cached values; the integer of the early return is 0 and
    comes with a new cached temperature only; otherwise the driver is as it
    was, but for a new cached temperature at most. *)
Definition cache_protocol (d : driver) (o : outcome retval) (d' : driver)
  : Prop :=
  match o with
  | Ok (RPair t p) =>
      exists t' p',
        t = Some t' /\ p = Some p' /\ d' = set_press p (set_temp t d)
  | Ok (RInt z) => z = 0 /\ exists t', d' = set_temp (Some t') d
  | _ => d' = d \/ exists t', d' = set_temp (Some t') d
  end.

(** The computation [c] raises no exception outside [allowed]. *)
Definition raises_only {S A} (allowed : list exn) (c : M S A) : Prop :=
  forall s e, fst (c s) = Raise e -> In e allowed.

(** The transactions of a complete [__init__]. *)
Definition init_reads : list event :=
  Xfer [Z.lor REG.ID 0x80] 1
  :: map (fun r => Xfer [Z.lor r 0x80] 2) coefficient_registers.

(** *** The plan of [__init__]

    The registers [__init__] reads, with what it reads them as. *)

Inductive reg_kind : Type := IdReg | UnsignedReg | SignedReg.

Definition init_plan : list (reg_kind * Z) :=
  [(IdReg, REG.ID);
   (UnsignedReg, REG.T1); (SignedReg, REG.T2); (SignedReg, REG.T3);
   (UnsignedReg, REG.P1); (SignedReg, REG.P2); (SignedReg, REG.P3);
   (SignedReg, REG.P4); (SignedReg, REG.P5); (SignedReg, REG.P6);
   (SignedReg, REG.P7); (SignedReg, REG.P8); (SignedReg, REG.P9)].

(** The transaction that reads a register of the plan. *)
Definition plan_event (kr : reg_kind * Z) : event :=
  Xfer [Z.lor (snd kr) 0x80]
       (match fst kr with IdReg => 1 | _ => 2 end).

(** [float(z)] does not raise. *)
Definition converts (z : Z) : bool :=
  match py_float z with
  | Ok _ => true
  | _ => false
  end.

Section Plan.
Variable Dev : Type.
Variable xchg : Dev -> list Z -> Z -> option (list Z) * Dev.

(** Whether reading register [r] goes well on the device in state [dv],
    and the state of the device after the exchange.  It goes well when the
    port answers with enough bytes and, for the identity register, the
    byte is 0x58, for a coefficient register, the value converts to a
    float. *)
Definition transaction (k : reg_kind) (r : Z) (dv : Dev) : bool * Dev :=
  match k with
  | IdReg =>
      match xchg dv [Z.lor r 0x80] 1 with
      | (Some (id :: _), dv') => (id =? REG.ID_VAL, dv')
      | (_, dv') => (false, dv')
      end
  | UnsignedReg =>
      match xchg dv [Z.lor r 0x80] 2 with
      | (Some (lo :: hi :: _), dv') =>
          (converts (Z.lor (Z.shiftl hi 8) lo), dv')
      | (_, dv') => (false, dv')
      end
  | SignedReg =>
      match xchg dv [Z.lor r 0x80] 2 with
      | (Some (lo :: hi :: _), dv') =>
          let u := Z.lor (Z.shiftl hi 8) lo in
          (converts (if u >? 32767 then u - 65536 else u), dv')
      | (_, dv') => (false, dv')
      end
  end.

(** The number of transactions of [plan] up to and including the first
    that does not go well, and whether all of them went well. *)
Fixpoint first_failure (plan : list (reg_kind * Z)) (dv : Dev)
  : nat * bool :=
  match plan with
  | [] => (O, true)
  | (k, r) :: rest =>
      let (ok, dv') := transaction k r dv in
      if ok
      then let (n, all) := first_failure rest dv' in (S n, all)
      else (1%nat, false)
  end.

(** The computation [c] performs the transactions of [plan] up to and
    including the first that does not go well, and returns a value exactly
    when all of them went well. *)
Definition follows_plan {A} (plan : list (reg_kind * Z))
           (c : M (bus Dev) A) : Prop :=
  forall b,
    log (snd (c b))
    = log b ++ firstn (fst (first_failure plan (dev b)))
                      (map plan_event plan)
    /\ (snd (first_failure plan (dev b)) = true
        <-> exists a, fst (c b) = Ok a).

End Plan.

Arguments transaction {Dev} xchg k r dv.
Arguments first_failure {Dev} xchg plan dv.
Arguments follows_plan {Dev} xchg {A} plan c.

(** The range of the value a coefficient register holds: [T1] and [P1] are
    unsigned, the others signed. *)
Definition coefficient_range (r v : Z) : Prop :=
  if (r =? REG.T1) || (r =? REG.P1)
  then 0 <= v <= 65535
  else -32768 <= v <= 32767.

(** The calls that are property reads. *)
Definition is_accessor (c : call) : bool :=
  match c with
  | CallRead _ => false
  | _ => true
  end.

(** ** More scripted sensors *)

(** A sensor whose status register reports "measuring" for ever. *)
Definition stuck_sensor : Mock.t :=
  Mock.mk 0x58 Mock.datasheet_coeff [] 0x08
          (Mock.be20 519888) (Mock.be20 415148).

(** A sensor whose pressure burst comes back one byte short. *)
Definition short_pressure_sensor : Mock.t :=
  Mock.mk 0x58 Mock.datasheet_coeff [] 0 (Mock.be20 519888) [0x65; 0x5A].

(** The values the coefficient registers of the data sheet's sensor hold,
    by command byte. *)
Definition datasheet_value (cmd : Z) : Z :=
  if cmd =? 0x88 then 27504 else if cmd =? 0x8A then 26435
  else if cmd =? 0x8C then -1000 else if cmd =? 0x8E then 36477
  else if cmd =? 0x90 then -10685 else if cmd =? 0x92 then 3024
  else if cmd =? 0x94 then 2855 else if cmd =? 0x96 then 140
  else if cmd =? 0x98 then -7 else if cmd =? 0x9A then 15500
  else if cmd =? 0x9C then -14600 else if cmd =? 0x9E then 6000
  else 0.

(** A sensor as the data sheet's, but with 0 in the register of [dig_P1],
    and the driver [__init__] builds on it. *)
Definition p1_zero_sensor : Mock.t :=
  Mock.mk 0x58
          (fun cmd => if cmd =? 0x8E then Mock.le16 0
                      else Mock.datasheet_coeff cmd)
          [] 0 (Mock.be20 519888) (Mock.be20 415148).

Definition p1_zero_driver : driver :=
  mkDriver None None 27504 26435 (-1000)
    0 (-10685) 3024 2855 140 (-7) 15500 (-14600) 6000.

(** * Properties *)

(** ** Runs on the scripted sensor *)

Example init_datasheet :
  fst (__init__ Mock.xchg (Mock.fresh 0x58 [])) = Ok datasheet_driver.
Proof. vm_compute. reflexivity. Qed.

Example readU24_datasheet :
  fst (_readU24 Mock.xchg REG.TEMP_MSB (Mock.fresh 0x58 [])) = Ok 519888%float
  /\ fst (_readU24 Mock.xchg REG.PRESS_MSB (Mock.fresh 0x58 []))
     = Ok 415148%float.
Proof. split; vm_compute; reflexivity. Qed.

Example read_datasheet :
  fst (read Mock.xchg 1 (Mock.fresh 0x58 [], datasheet_driver))
  = Ok (RPair (Some 25.082421875000001%float) (Some 100653.00897415778%float)).
Proof. vm_compute. reflexivity. Qed.

Example read_degenerate_run :
  read Mock.xchg 1 (Mock.fresh 0x58 [], degenerate_driver)
  = (Ok (RInt 0),
     (mkBus (Mock.datasheet 0x58 [])
        [Xfer [0x74; 0xFE] 0; Xfer [0xF3] 1; Xfer [0xFA] 3; Xfer [0xF7] 3],
      set_temp (Some 25.082421875000001%float) degenerate_driver)).
Proof. vm_compute. reflexivity. Qed.

(** ** Conversions between [int] and [float] *)

Lemma digits2_pos_iter_xO (p d : positive) :
  digits2_pos (Pos.iter xO p d) = (digits2_pos p + d)%positive.
Proof.
  induction d as [|d IH] using Pos.peano_ind.
  - simpl. now rewrite Pos.add_1_r.
  - rewrite Pos.iter_succ. simpl. rewrite IH. lia.
Qed.

Lemma Zpos_iter_xO (p d : positive) :
  Z.pos (Pos.iter xO p d) = Z.pos p * 2 ^ Z.pos d.
Proof.
  induction d as [|d IH] using Pos.peano_ind.
  - simpl. lia.
  - rewrite Pos.iter_succ, Pos2Z.inj_xO, IH, Pos2Z.inj_succ, Z.pow_succ_r
      by lia.
    lia.
Qed.

Lemma digits2_pos_lower (p : positive) :
  2 ^ (Z.pos (digits2_pos p) - 1) <= Z.pos p.
Proof.
  induction p as [p IH|p IH|]; cbn [digits2_pos]; try (simpl; lia);
    rewrite Pos2Z.inj_succ;
    replace (Z.succ (Z.pos (digits2_pos p)) - 1)
      with (Z.succ (Z.pos (digits2_pos p) - 1)) by lia;
    rewrite Z.pow_succ_r by lia; lia.
Qed.

Lemma digits2_pos_53 (p : positive) :
  Z.pos p < 2 ^ 53 -> Z.pos (digits2_pos p) <= 53.
Proof.
  intros H. pose proof (digits2_pos_lower p) as L.
  destruct (Z_le_gt_dec (Z.pos (digits2_pos p)) 53) as [|G]; trivial.
  assert (2 ^ 53 <= 2 ^ (Z.pos (digits2_pos p) - 1))
    by (apply Z.pow_le_mono_r; lia).
  lia.
Qed.

(** A mantissa of at most 53 bits is brought to exactly 53 bits by a left
    shift, which the opposite shift undoes. *)
Lemma shl_align_53 (p : positive) :
  Z.pos (digits2_pos p) <= 53 ->
  exists mz ez,
    shl_align p 0 (Z.pos (digits2_pos p) - 53) = (mz, ez)
    /\ Z.pos (digits2_pos mz) = 53
    /\ -52 <= ez <= 0
    /\ Z.shiftl (Z.pos mz) ez = Z.pos p.
Proof.
  intros Hd. unfold shl_align. rewrite Z.sub_0_r.
  destruct (Z.pos (digits2_pos p) - 53) as [|d|d] eqn:E; try lia.
  - exists p, 0. repeat split; try lia.
  - exists (Pos.iter xO p d), (Z.neg d). repeat split; try lia.
    + rewrite digits2_pos_iter_xO. lia.
    + rewrite Zpos_iter_xO. change (Z.neg d) with (- Z.pos d).
      rewrite Z.shiftl_opp_r, Z.shiftr_div_pow2 by lia.
      apply Z.div_mul. apply Z.pow_nonzero; lia.
Qed.

Lemma binary_round_53 (s : bool) (p : positive) :
  Z.pos (digits2_pos p) <= 53 ->
  exists mz ez,
    binary_round prec emax s p 0 = S754_finite s mz ez
    /\ valid_binary (S754_finite s mz ez) = true
    /\ Z.shiftl (Z.pos mz) ez = Z.pos p.
Proof.
  intros Hd. destruct (shl_align_53 p Hd) as (mz & ez & Ha & Hm & He & Hs).
  exists mz, ez.
  assert (Hf : fexp prec emax (Z.pos (digits2_pos p) + 0)
               = Z.pos (digits2_pos p) - 53).
  { unfold fexp, SpecFloat.emin, prec, emax. lia. }
  assert (Hg : fexp prec emax (Z.pos (digits2_pos mz) + ez) = ez).
  { rewrite Hm. unfold fexp, SpecFloat.emin, prec, emax. lia. }
  split; [|split]; trivial.
  - unfold binary_round. rewrite Hf, Ha.
    unfold binary_round_aux, shr_fexp. cbn [Zdigits2 shr_record_of_loc].
    rewrite Hg, Z.sub_diag.
    cbn [shr shr_m loc_of_shr_record round_nearest_even Zdigits2
         shr_record_of_loc].
    rewrite Hg, Z.sub_diag. cbn [shr shr_m].
    replace (ez <=? emax - prec) with true; trivial.
    symmetry. apply Z.leb_le. unfold emax, prec. lia.
  - cbn [SpecFloat.valid_binary]. unfold bounded, canonical_mantissa.
    rewrite Hg, Z.eqb_refl. apply Z.leb_le. unfold emax, prec. lia.
Qed.

(** [float(z)] succeeds and loses nothing when [|z| < 2^53]: [int] of the
    result is [z] again. *)
Lemma py_float_exact (z : Z) :
  Z.abs z < 2 ^ 53 ->
  exists f, py_float z = Ok f /\ py_int f = Ok z.
Proof.
  intros H. unfold py_float, py_int.
  destruct z as [|p|p]; cbn [binary_normalize].
  - exists 0%float. split; reflexivity.
  - destruct (binary_round_53 false p) as (mz & ez & -> & Hv & Hs).
    { apply digits2_pos_53. simpl in H. lia. }
    eexists; split; [reflexivity|].
    rewrite (Prim2SF_SF2Prim _ Hv). now rewrite Hs.
  - destruct (binary_round_53 true p) as (mz & ez & -> & Hv & Hs).
    { apply digits2_pos_53. simpl in H. lia. }
    eexists; split; [reflexivity|].
    rewrite (Prim2SF_SF2Prim _ Hv). now rewrite Hs.
Qed.

(** A division by a non-zero literal never raises: the checked division
    is the primitive one. *)
Lemma py_truediv_literal (a c : float) :
  (c =? 0)%float = false -> py_truediv a c = Ok (a / c)%float.
Proof. intros H. unfold py_truediv. now rewrite H. Qed.

Example literal_divisors :
  forallb (fun c => negb (c =? 0)%float)
    [16384.0; 1024.0; 131072.0; 8192.0; 5120.0; 2.0; 32768.0; 4.0;
     534288.0; 4096.0; 2147483648.0; 16.0; 1.013e2]%float = true.
Proof. vm_compute. reflexivity. Qed.

(** ** Assembling bytes *)

Lemma lor_shiftl_low (h l k : Z) :
  0 <= k -> 0 <= l < 2 ^ k -> Z.lor (Z.shiftl h k) l = h * 2 ^ k + l.
Proof.
  intros Hk Hl.
  assert (D : Z.land (Z.shiftl h k) l = 0).
  { apply Z.bits_inj'. intros n Hn. rewrite Z.land_spec, Z.bits_0.
    destruct (Z.lt_ge_cases n k) as [L|G].
    - now rewrite Z.shiftl_spec_low.
    - replace (Z.testbit l n) with false; [apply andb_false_r|].
      symmetry. apply Z.testbit_false; trivial.
      rewrite Z.div_small; trivial.
      split; [lia|]. apply Z.lt_le_trans with (2 ^ k); [lia|].
      apply Z.pow_le_mono_r; lia. }
  rewrite <- Z.lxor_lor, <- Z.add_nocarry_lxor by exact D.
  now rewrite Z.shiftl_mul_pow2.
Qed.

Lemma readU16_value (low high : Z) :
  byte low -> Z.lor (Z.shiftl high 8) low = high * 256 + low.
Proof.
  unfold byte. intros H. rewrite lor_shiftl_low; simpl; lia.
Qed.

Lemma raw20_value (b0 b1 b2 : Z) :
  byte b0 -> byte b1 -> byte b2 ->
  raw20 b0 b1 b2 = b0 * 4096 + b1 * 16 + b2 / 16.
Proof.
  unfold byte, raw20. intros H0 H1 H2.
  rewrite (Z.shiftl_mul_pow2 b1 8) by lia.
  rewrite lor_shiftl_low by (simpl; lia).
  replace (b0 * 2 ^ 16 + b1 * 2 ^ 8) with (Z.shiftl (b0 * 256 + b1) 8)
    by (rewrite Z.shiftl_mul_pow2 by lia; simpl; lia).
  rewrite lor_shiftl_low by (simpl; lia).
  rewrite Z.shiftr_div_pow2 by lia.
  replace ((b0 * 256 + b1) * 2 ^ 8 + b2)
    with (b2 + (b0 * 4096 + b1 * 16) * 2 ^ 4) by (simpl; lia).
  rewrite Z.div_add by (simpl; lia). change (2 ^ 4) with 16. lia.
Qed.

Lemma raw20_range (b0 b1 b2 : Z) :
  byte b0 -> byte b1 -> byte b2 -> 0 <= raw20 b0 b1 b2 < 2 ^ 20.
Proof.
  intros H0 H1 H2. rewrite raw20_value by assumption. unfold byte in *.
  assert (0 <= b2 / 16 < 16).
  { split; [apply Z.div_pos; lia|apply Z.div_lt_upper_bound; lia]. }
  simpl. lia.
Qed.

(** ** Stepping through a computation *)

Lemma bind_ok {S A B} (c : M S A) (k : A -> M S B) (s s' : S) (a : A) :
  c s = (Ok a, s') -> bind c k s = k a s'.
Proof. intros H. unfold bind. now rewrite H. Qed.

Lemma bind_raise {S A B} (c : M S A) (k : A -> M S B) (s s' : S) (e : exn) :
  c s = (Raise e, s') -> bind c k s = (Raise e, s').
Proof. intros H. unfold bind. now rewrite H. Qed.

Lemma lift_ok {S A} (o : outcome A) (a : A) (s : S) :
  o = Ok a -> lift o s = (Ok a, s).
Proof. intros ->. reflexivity. Qed.

Lemma on_spi_eq {Dev A} (c : M (bus Dev) A) (b b' : bus Dev) (d : driver)
      (r : outcome A) :
  c b = (r, b') -> on_spi c (b, d) = (r, (b', d)).
Proof. intros H. unfold on_spi. simpl. now rewrite H. Qed.

Lemma exchange_some {Dev} (xchg : Dev -> list Z -> Z -> option (list Z) * Dev)
      (b : bus Dev) (out data : list Z) (readlen : Z) (dv' : Dev) :
  xchg (dev b) out readlen = (Some data, dv') ->
  exchange xchg out readlen b
  = (Ok data, mkBus dv' (log b ++ [Xfer out readlen])).
Proof. intros H. unfold exchange. now rewrite H. Qed.

(** Every exchange is logged, whatever the device answers. *)
Lemma exchange_log {Dev} (xchg : Dev -> list Z -> Z -> option (list Z) * Dev)
      (b : bus Dev) (out : list Z) (readlen : Z) :
  log (snd (exchange xchg out readlen b)) = log b ++ [Xfer out readlen].
Proof.
  unfold exchange. destruct (xchg (dev b) out readlen) as [[data|] dv'];
    reflexivity.
Qed.

(** Running [c] on [s] steps to running [k a] on [s']. *)
Ltac step H :=
  erewrite bind_ok;
  [| first [ exact H
           | apply on_spi_eq; exact H
           | apply lift_ok; exact H
           | apply exchange_some; exact H
           | apply on_spi_eq; apply exchange_some; exact H ] ].

(** ** The register primitives *)

Section Primitives.
Variable Dev : Type.
Variable xchg : Dev -> list Z -> Z -> option (list Z) * Dev.

Lemma readU8_some (b : bus Dev) (addr v : Z) (rest : list Z) (dv' : Dev) :
  xchg (dev b) [Z.lor addr 0x80] 1 = (Some (v :: rest), dv') ->
  _readU8 xchg addr b
  = (Ok v, mkBus dv' (log b ++ [Xfer [Z.lor addr 0x80] 1])).
Proof. intros H. unfold _readU8. step H. reflexivity. Qed.

Lemma readU16_some (b : bus Dev) (addr low high : Z) (rest : list Z)
      (dv' : Dev) :
  xchg (dev b) [Z.lor addr 0x80] 2 = (Some (low :: high :: rest), dv') ->
  _readU16 xchg addr b
  = (Ok (Z.lor (Z.shiftl high 8) low),
     mkBus dv' (log b ++ [Xfer [Z.lor addr 0x80] 2])).
Proof. intros H. unfold _readU16. step H. reflexivity. Qed.

Lemma readU24_some (b : bus Dev) (addr b0 b1 b2 : Z) (rest : list Z)
      (dv' : Dev) :
  xchg (dev b) [Z.lor addr 0x80] 3 = (Some (b0 :: b1 :: b2 :: rest), dv') ->
  _readU24 xchg addr b
  = (py_float (raw20 b0 b1 b2),
     mkBus dv' (log b ++ [Xfer [Z.lor addr 0x80] 3])).
Proof. intros H. unfold _readU24. step H. reflexivity. Qed.

(** C5: with response bytes [low], [high] in [0, 255], [_readU16] sends the
    one command byte [addr | 0x80], asks for 2 bytes and returns
    [high*256 + low]; [_readS16] does the same exchange and returns that
    value minus 65536 exactly when it exceeds 32767, the value itself
    otherwise, so a result in [-32768, 32767]. *)
Theorem C5_readU16_readS16 (b : bus Dev) (addr low high : Z) (dv' : Dev) :
  byte low -> byte high ->
  xchg (dev b) [Z.lor addr 0x80] 2 = (Some [low; high], dv') ->
  let b' := mkBus dv' (log b ++ [Xfer [Z.lor addr 0x80] 2]) in
  let u := high * 256 + low in
  _readU16 xchg addr b = (Ok u, b')
  /\ exists s,
       _readS16 xchg addr b = (Ok s, b')
       /\ (32767 < u -> s = u - 65536)
       /\ (u <= 32767 -> s = u)
       /\ -32768 <= s <= 32767.
Proof.
  intros Hl Hh H b' u.
  assert (HU : _readU16 xchg addr b = (Ok u, b')).
  { rewrite (readU16_some _ _ _ _ _ _ H), readU16_value by assumption.
    reflexivity. }
  split; [exact HU|].
  exists (if u >? 32767 then u - 65536 else u). split.
  - unfold _readS16. step HU. reflexivity.
  - unfold byte in *. subst u.
    destruct (Z.gtb_spec (high * 256 + low) 32767); lia.
Qed.

(** C6: with a burst of three bytes in [0, 255], [_readU24] sends the one
    command byte [addr | 0x80], asks for 3 bytes and returns the float of
    [((b0 << 16) | (b1 << 8) | b2) >> 4], that is of
    [b0*4096 + b1*16 + b2/16]: byte 0 is the most significant, the low four
    bits of byte 2 are dropped, and the value lies in [0, 2^20) and is
    represented exactly. *)
Theorem C6_readU24 (b : bus Dev) (addr b0 b1 b2 : Z) (dv' : Dev) :
  byte b0 -> byte b1 -> byte b2 ->
  xchg (dev b) [Z.lor addr 0x80] 3 = (Some [b0; b1; b2], dv') ->
  let v := Z.shiftr (Z.lor (Z.lor (Z.shiftl b0 16) (Z.shiftl b1 8)) b2) 4 in
  exists f,
    _readU24 xchg addr b
    = (Ok f, mkBus dv' (log b ++ [Xfer [Z.lor addr 0x80] 3]))
    /\ py_float v = Ok f
    /\ py_int f = Ok v
    /\ v = b0 * 4096 + b1 * 16 + b2 / 16
    /\ 0 <= v < 2 ^ 20.
Proof.
  intros H0 H1 H2 H v. fold (raw20 b0 b1 b2) in v.
  pose proof (raw20_range b0 b1 b2 H0 H1 H2) as R.
  destruct (py_float_exact v) as (f & Hf & Hi).
  { subst v. assert (2 ^ 20 < 2 ^ 53) by (apply Z.pow_lt_mono_r; lia). lia. }
  exists f. repeat split; trivial; try apply R.
  - rewrite (readU24_some _ _ _ _ _ _ _ H). fold v. now rewrite Hf.
  - apply raw20_value; assumption.
Qed.

(** C4: when the identity register answers a byte other than 0x58,
    [__init__] raises [RuntimeError('Not a BMP280')]: no driver is
    returned, and the only exchange on the bus is the read of the identity
    register, so no coefficient register has been read. *)
Theorem C4_identity_mismatch (b : bus Dev) (id : Z) (rest : list Z)
        (dv' : Dev) :
  xchg (dev b) [Z.lor REG.ID 0x80] 1 = (Some (id :: rest), dv') ->
  id <> REG.ID_VAL ->
  __init__ xchg b
  = (Raise (RuntimeError "Not a BMP280"),
     mkBus dv' (log b ++ [Xfer [Z.lor REG.ID 0x80] 1])).
Proof.
  intros H Hid. unfold __init__. step (readU8_some _ _ _ _ _ H).
  apply Z.eqb_neq in Hid. rewrite Hid. reflexivity.
Qed.

End Primitives.

Lemma C5_readU16_readS16_witness :
  _readU16 Mock.xchg REG.P2 (Mock.fresh 0x58 [])
  = (Ok (214 * 256 + 67),
     mkBus (Mock.datasheet 0x58 []) [Xfer [0x90] 2])
  /\ exists s,
       _readS16 Mock.xchg REG.P2 (Mock.fresh 0x58 [])
       = (Ok s, mkBus (Mock.datasheet 0x58 []) [Xfer [0x90] 2])
       /\ (32767 < 214 * 256 + 67 -> s = 214 * 256 + 67 - 65536)
       /\ (214 * 256 + 67 <= 32767 -> s = 214 * 256 + 67)
       /\ -32768 <= s <= 32767.
Proof.
  apply (C5_readU16_readS16 Mock.t Mock.xchg (Mock.fresh 0x58 []) REG.P2
           67 214 (Mock.datasheet 0x58 []));
    [unfold byte; lia | unfold byte; lia | reflexivity].
Defined.

Lemma C6_readU24_witness :
  exists f,
    _readU24 Mock.xchg REG.TEMP_MSB (Mock.fresh 0x58 [])
    = (Ok f, mkBus (Mock.datasheet 0x58 []) [Xfer [0xFA] 3])
    /\ py_int f = Ok 519888.
Proof.
  destruct (C6_readU24 Mock.t Mock.xchg (Mock.fresh 0x58 []) REG.TEMP_MSB
              126 237 0 (Mock.datasheet 0x58 []))
    as (f & Hr & _ & Hi & _); [unfold byte; lia .. | reflexivity |].
  exists f. split; [exact Hr | exact Hi].
Defined.

Lemma C4_identity_mismatch_witness :
  __init__ Mock.xchg (Mock.fresh 0x60 [])
  = (Raise (RuntimeError "Not a BMP280"),
     mkBus (Mock.datasheet 0x60 []) [Xfer [0xD0] 1]).
Proof.
  apply (C4_identity_mismatch Mock.t Mock.xchg (Mock.fresh 0x60 []) 0x60 []
           (Mock.datasheet 0x60 []));
    [reflexivity | unfold REG.ID_VAL; lia].
Defined.

(** ** The polling loop *)

Section Polling.
Variable Dev : Type.
Variable xchg : Dev -> list Z -> Z -> option (list Z) * Dev.

Lemma status_reads_app (l1 l2 : list event) :
  status_reads (l1 ++ l2) = (status_reads l1 + status_reads l2)%nat.
Proof.
  induction l1 as [|e l1 IH]; [reflexivity|].
  destruct e as [[|cmd [|c2 out]] n|s]; simpl; rewrite IH; lia.
Qed.

Lemma status_reads_polling (N : nat) : status_reads (polling N) = N.
Proof. induction N as [|N IH]; simpl; [|rewrite IH]; reflexivity. Qed.

(** While the sensor reports "measuring", [poll] reads the status, sleeps
    and reads again; it stops on the first "ready". *)
Lemma poll_measuring (N : nat) (dv dv' : Dev) :
  measuring_for xchg N dv dv' ->
  forall (fuel : nat) (l : list event),
    (N < fuel)%nat ->
    poll xchg fuel (mkBus dv l)
    = (Ok tt, mkBus dv' (l ++ polling N ++ [Xfer [0xF3] 1])).
Proof.
  induction 1 as [dv dv' status rest Hx Hs|N dv dv1 dv' status rest Hx Hs _ IH];
    intros [|fuel] l Hf; try lia; cbn [poll].
  - step (readU8_some Dev xchg (mkBus dv l) REG.STATUS status rest dv' Hx).
    rewrite Hs. reflexivity.
  - step (readU8_some Dev xchg (mkBus dv l) REG.STATUS status rest dv1 Hx).
    apply Z.eqb_neq in Hs. rewrite Hs. cbn [negb].
    unfold bind, sleep. cbn [dev log].
    rewrite IH by lia. cbn [polling]. rewrite <- !app_assoc. reflexivity.
Qed.

(** Without fuel left the model reports the loop as still running. *)
Lemma poll_out_of_fuel (N : nat) (dv dv' : Dev) :
  measuring_for xchg N dv dv' ->
  forall (fuel : nat) (l : list event),
    (fuel <= N)%nat ->
    fst (poll xchg fuel (mkBus dv l)) = Diverge.
Proof.
  induction 1 as [dv dv' status rest Hx Hs|N dv dv1 dv' status rest Hx Hs _ IH];
    intros [|fuel] l Hf; try lia; cbn [poll]; try reflexivity.
  step (readU8_some Dev xchg (mkBus dv l) REG.STATUS status rest dv1 Hx).
  apply Z.eqb_neq in Hs. rewrite Hs. cbn [negb].
  unfold bind, sleep. cbn [dev log]. apply IH. lia.
Qed.

End Polling.

(** ** The shape of [read] *)

Lemma guard_then_divide {S : Type} (g x : float) (k : float -> M S retval)
      (st : S) :
  (if (g =? 0)%float then ret (RInt 0)
   else bind (lift (py_truediv x g)) k) st
  = if (g =? 0)%float then (Ok (RInt 0), st) else k (x / g)%float st.
Proof. unfold py_truediv, bind, lift. destruct (g =? 0)%float; reflexivity. Qed.

Section ReadShape.
Variable Dev : Type.
Variable xchg : Dev -> list Z -> Z -> option (list Z) * Dev.

Variables (b b1 b2 b3 : bus Dev) (self : driver) (fuel : nat).
Variables (r0 : list Z) (UT tf : float) (t_fine : Z).

Hypothesis Htrig : exchange xchg trigger 0 b = (Ok r0, b1).
Hypothesis Hpoll : poll xchg fuel b1 = (Ok tt, b2).
Hypothesis Htemp : _readU24 xchg REG.TEMP_MSB b2 = (Ok UT, b3).
Hypothesis Hfine : py_int (temp_sum self UT) = Ok t_fine.
Hypothesis Hflt : py_float t_fine = Ok tf.

(** Once the temperature part has gone through, [read] has cached the
    temperature, and the rest depends on the pressure burst and on the
    guard alone. *)
Lemma read_cases :
  read xchg fuel (b, self)
  = let cached := set_temp (Some (tf / 5120.0)%float) self in
    match _readU24 xchg REG.PRESS_MSB b3 with
    | (Ok UP, b4) =>
        if (guard_var1 self tf =? 0)%float
        then (Ok (RInt 0), (b4, cached))
        else
          let p := pressure_after_guard self tf UP in
          (Ok (RPair (Some (tf / 5120.0)%float) (Some p)),
           (b4, set_press (Some p) cached))
    | (Raise e, b4) => (Raise e, (b4, cached))
    | (Diverge, b4) => (Diverge, (b4, cached))
    end.
Proof.
  unfold read. step Htrig. step Hpoll. step Htemp.
  unfold get_self at 1. unfold bind at 1. cbn [snd fst]. cbv zeta.
  step Hfine. step Hflt.
  unfold modify_self at 1. unfold bind at 1. cbn [snd fst].
  unfold bind at 1, on_spi at 1. cbn [snd fst].
  destruct (_readU24 xchg REG.PRESS_MSB b3) as [[UP|e|] b4]; try reflexivity.
  unfold get_self at 1. unfold bind at 1. cbn [snd fst].
  step Hflt.
  rewrite guard_then_divide.
  reflexivity.
Qed.

End ReadShape.

Section ReadProtocol.
Variable Dev : Type.
Variable xchg : Dev -> list Z -> Z -> option (list Z) * Dev.

(** A burst read is one exchange on the bus, whatever comes of it. *)
Lemma readU24_log (b : bus Dev) (addr : Z) :
  log (snd (_readU24 xchg addr b)) = log b ++ [Xfer [Z.lor addr 0x80] 3].
Proof.
  unfold _readU24, bind, exchange.
  destruct (xchg (dev b) [Z.lor addr 0x80] 3) as [[data|] dv']; cbn;
    [|reflexivity].
  destruct data as [|x0 [|x1 [|x2 rest]]]; cbn; reflexivity.
Qed.

(** C3: when the status register reports "measuring" (bit 0x08) for the
    first [N] status reads and "ready" on the next, [read] writes the two
    trigger bytes [CONTROL & ~0x80] and [0xFE], then reads the status
    register [N+1] times (sleeping after each of the first [N]), and only
    then reads the temperature burst and, after it, the pressure burst. *)
Theorem C3_poll_then_read (b : bus Dev) (self : driver) (N fuel : nat)
        (r0 rest : list Z) (dv1 dv2 dv3 : Dev) (b0 b1 b2 t_fine : Z)
        (UT tf : float) :
  xchg (dev b) trigger 0 = (Some r0, dv1) ->
  measuring_for xchg N dv1 dv2 ->
  (N < fuel)%nat ->
  xchg dv2 [Z.lor REG.TEMP_MSB 0x80] 3 = (Some (b0 :: b1 :: b2 :: rest), dv3) ->
  py_float (raw20 b0 b1 b2) = Ok UT ->
  py_int (temp_sum self UT) = Ok t_fine ->
  py_float t_fine = Ok tf ->
  let evs :=
    Xfer [Z.land REG.CONTROL (Z.lnot 0x80); 0xFE] 0
    :: polling N
    ++ [Xfer [Z.lor REG.STATUS 0x80] 1;
        Xfer [Z.lor REG.TEMP_MSB 0x80] 3;
        Xfer [Z.lor REG.PRESS_MSB 0x80] 3] in
  log (fst (snd (read xchg fuel (b, self)))) = log b ++ evs
  /\ status_reads evs = S N.
Proof.
  intros Htrig Hmeas Hfuel Htemp HUT Hfine Hflt evs. split.
  - pose proof (exchange_some xchg b trigger r0 0 dv1 Htrig) as E1.
    pose proof (poll_measuring Dev xchg N dv1 dv2 Hmeas fuel
                  (log b ++ [Xfer trigger 0]) Hfuel) as E2.
    pose proof (readU24_some Dev xchg
                  (mkBus dv2 ((log b ++ [Xfer trigger 0])
                              ++ polling N ++ [Xfer [0xF3] 1]))
                  REG.TEMP_MSB b0 b1 b2 rest dv3 Htemp) as E3.
    rewrite HUT in E3.
    rewrite (read_cases Dev xchg _ _ _ _ self fuel r0 UT tf t_fine
               E1 E2 E3 Hfine Hflt).
    cbv zeta.
    match goal with
    | |- context [_readU24 xchg REG.PRESS_MSB ?b3] =>
        pose proof (readU24_log b3 REG.PRESS_MSB) as HL;
        destruct (_readU24 xchg REG.PRESS_MSB b3) as [[UP|e|] b4]
    end; cbn [snd fst log] in HL |- *;
      try destruct (guard_var1 self tf =? 0)%float; cbn [snd fst];
      rewrite HL; subst evs; unfold trigger;
      repeat rewrite <- app_assoc; reflexivity.
  - subst evs. cbn [status_reads].
    rewrite status_reads_app, status_reads_polling.
    cbn. lia.
Qed.

End ReadProtocol.

Lemma C3_poll_then_read_witness :
  log (fst (snd (read Mock.xchg 3
                   (Mock.fresh 0x58 [0x08; 0x0C], datasheet_driver))))
  = [Xfer [0x74; 0xFE] 0;
     Xfer [0xF3] 1; Sleep 0.01%float; Xfer [0xF3] 1; Sleep 0.01%float;
     Xfer [0xF3] 1; Xfer [0xFA] 3; Xfer [0xF7] 3]
  /\ status_reads
       [Xfer [0x74; 0xFE] 0;
        Xfer [0xF3] 1; Sleep 0.01%float; Xfer [0xF3] 1; Sleep 0.01%float;
        Xfer [0xF3] 1; Xfer [0xFA] 3; Xfer [0xF7] 3] = 3%nat.
Proof.
  apply (C3_poll_then_read Mock.t Mock.xchg
           (Mock.fresh 0x58 [0x08; 0x0C]) datasheet_driver 2 3
           [] [] (Mock.datasheet 0x58 [0x08; 0x0C])
           (Mock.datasheet 0x58 []) (Mock.datasheet 0x58 [])
           126 237 0 128422 519888%float 128422%float).
  - reflexivity.
  - apply (measuring_more Mock.t Mock.xchg 1 _ (Mock.datasheet 0x58 [0x0C])
             _ 0x08 []); [reflexivity | discriminate |].
    apply (measuring_more Mock.t Mock.xchg 0 _ (Mock.datasheet 0x58 [])
             _ 0x0C []); [reflexivity | discriminate |].
    apply (measuring_done Mock.t Mock.xchg _ _ 0 []); reflexivity.
  - lia.
  - reflexivity.
  - vm_compute. reflexivity.
  - vm_compute. reflexivity.
  - vm_compute. reflexivity.
Defined.

(** ** What [read] leaves alone *)

Section Frame.
Variable Dev : Type.
Variable xchg : Dev -> list Z -> Z -> option (list Z) * Dev.

Lemma same_calibration_refl (d : driver) : same_calibration d d.
Proof. reflexivity. Qed.

Lemma same_calibration_trans (d1 d2 d3 : driver) :
  same_calibration d1 d2 -> same_calibration d2 d3 -> same_calibration d1 d3.
Proof. unfold same_calibration. congruence. Qed.

(** Two drivers with the same calibration set differ in the two cached
    values at most. *)
Lemma same_calibration_cache (d d' : driver) :
  same_calibration d d' <->
  d' = set_press (_press d') (set_temp (_temp d') d).
Proof.
  unfold same_calibration, coefficients, set_press, set_temp.
  destruct d, d'; cbn. split; intros H; inversion H; reflexivity.
Qed.

Lemma cache_only_ret {A} (a : A) : cache_only (ret (S := bus Dev * driver) a).
Proof. intros st. apply same_calibration_refl. Qed.

Lemma cache_only_raise {A} (e : exn) :
  cache_only (raise (S := bus Dev * driver) (A := A) e).
Proof. intros st. apply same_calibration_refl. Qed.

Lemma cache_only_lift {A} (o : outcome A) :
  cache_only (lift (S := bus Dev * driver) o).
Proof. intros st. apply same_calibration_refl. Qed.

Lemma cache_only_get_self : cache_only (get_self (Dev := Dev)).
Proof. intros st. apply same_calibration_refl. Qed.

Lemma cache_only_on_spi {A} (c : M (bus Dev) A) : cache_only (on_spi c).
Proof.
  intros [b d]. unfold on_spi. cbn. destruct (c b).
  apply same_calibration_refl.
Qed.

Lemma cache_only_set_temp (t : option float) :
  cache_only (modify_self (Dev := Dev) (set_temp t)).
Proof. intros [b d]. reflexivity. Qed.

Lemma cache_only_set_press (p : option float) :
  cache_only (modify_self (Dev := Dev) (set_press p)).
Proof. intros [b d]. reflexivity. Qed.

Lemma cache_only_bind {A B} (c : M (bus Dev * driver) A)
      (k : A -> M (bus Dev * driver) B) :
  cache_only c -> (forall a, cache_only (k a)) -> cache_only (bind c k).
Proof.
  intros Hc Hk st. unfold bind. specialize (Hc st).
  destruct (c st) as [[a|e|] st']; trivial.
  eapply same_calibration_trans; [exact Hc | apply Hk].
Qed.

Ltac frame :=
  repeat first
    [ apply cache_only_ret | apply cache_only_raise | apply cache_only_lift
    | apply cache_only_get_self | apply cache_only_on_spi
    | apply cache_only_set_temp | apply cache_only_set_press
    | apply cache_only_bind; [|intro]
    | match goal with
      | |- cache_only (if ?c then _ else _) => destruct c
      | |- cache_only (match ?o with Some _ => _ | None => _ end) =>
          destruct o
      end ].

Lemma cache_only_read (fuel : nat) : cache_only (read xchg fuel).
Proof. unfold read. cbv zeta. frame. Qed.

Lemma cache_only_temperature : cache_only (temperature (Dev := Dev)).
Proof. unfold temperature. frame. Qed.

Lemma cache_only_pressure : cache_only (pressure (Dev := Dev)).
Proof. unfold pressure. frame. Qed.

Lemma cache_only_mbar : cache_only (mbar (Dev := Dev)).
Proof. unfold mbar. frame. Qed.

Lemma cache_only_comp : cache_only (comp (Dev := Dev)).
Proof. unfold comp. frame. Qed.

Lemma run_call_same_calibration (c : call) (st : bus Dev * driver) :
  same_calibration (snd st) (snd (run_call xchg c st)).
Proof.
  destruct c; cbn [run_call];
    [ apply cache_only_read | apply cache_only_temperature
    | apply cache_only_pressure | apply cache_only_mbar
    | apply cache_only_comp ].
Qed.

(** C9: no sequence of calls to [read], [temperature], [pressure], [mbar]
    and [comp] changes any of the twelve coefficients of a constructed
    driver, and a call to [read] changes nothing of the driver but the
    cached temperature and pressure. *)
Theorem C9_calibration_immutable (cs : list call) (st : bus Dev * driver) :
  coefficients (snd (run_calls xchg cs st)) = coefficients (snd st)
  /\ forall fuel : nat,
       let d' := snd (snd (read xchg fuel st)) in
       d' = set_press (_press d') (set_temp (_temp d') (snd st)).
Proof.
  split.
  - revert st. induction cs as [|c cs IH]; intros st; [reflexivity|].
    cbn [run_calls fold_left]. fold (run_calls xchg cs (run_call xchg c st)).
    rewrite IH. apply run_call_same_calibration.
  - intros fuel d'. apply same_calibration_cache. apply cache_only_read.
Qed.

End Frame.

(** ** No division by zero *)

Section NoZeroDivision.
Variable Dev : Type.
Variable xchg : Dev -> list Z -> Z -> option (list Z) * Dev.

Lemma no_zde_ret {S A} (a : A) :
  never_raises ZeroDivisionError (ret (S := S) a).
Proof. intros s. discriminate. Qed.

Lemma no_zde_lift {S A} (o : outcome A) :
  o <> Raise ZeroDivisionError ->
  never_raises ZeroDivisionError (lift (S := S) o).
Proof. intros H s. exact H. Qed.

Lemma no_zde_bind {S A B} (c : M S A) (k : A -> M S B) :
  never_raises ZeroDivisionError c ->
  (forall a, never_raises ZeroDivisionError (k a)) ->
  never_raises ZeroDivisionError (bind c k).
Proof.
  intros Hc Hk s. unfold bind. specialize (Hc s).
  destruct (c s) as [[a|e|] s']; cbn in *;
    [apply Hk | intros E; apply Hc; congruence | discriminate].
Qed.

Lemma no_zde_on_spi {A} (c : M (bus Dev) A) :
  never_raises ZeroDivisionError c ->
  never_raises ZeroDivisionError (on_spi (Dev := Dev) c).
Proof.
  intros Hc [b d]. unfold on_spi. cbn. specialize (Hc b).
  destruct (c b). exact Hc.
Qed.

Lemma no_zde_exchange (out : list Z) (readlen : Z) :
  never_raises ZeroDivisionError (exchange xchg out readlen).
Proof.
  intros b. unfold exchange.
  destruct (xchg (dev b) out readlen) as [[data|] dv']; discriminate.
Qed.

Lemma py_index_no_zde (data : list Z) (i : nat) :
  py_index data i <> Raise ZeroDivisionError.
Proof. unfold py_index. destruct (nth_error data i); discriminate. Qed.

Lemma py_float_no_zde (z : Z) : py_float z <> Raise ZeroDivisionError.
Proof.
  unfold py_float. destruct (binary_normalize prec emax z 0 false);
    discriminate.
Qed.

Lemma py_int_no_zde (x : float) : py_int x <> Raise ZeroDivisionError.
Proof.
  unfold py_int. destruct (Prim2SF x) as [s|s| |s m e]; discriminate.
Qed.

Lemma no_zde_readU8 (addr : Z) :
  never_raises ZeroDivisionError (_readU8 xchg addr).
Proof.
  unfold _readU8. apply no_zde_bind; [apply no_zde_exchange|intros data].
  apply no_zde_lift, py_index_no_zde.
Qed.

Lemma no_zde_readU24 (addr : Z) :
  never_raises ZeroDivisionError (_readU24 xchg addr).
Proof.
  unfold _readU24.
  repeat first [ apply no_zde_exchange
               | apply no_zde_lift; first [apply py_index_no_zde
                                          | apply py_float_no_zde]
               | apply no_zde_bind; [|intro] ].
Qed.

Lemma no_zde_poll (fuel : nat) :
  never_raises ZeroDivisionError (poll xchg fuel).
Proof.
  induction fuel as [|fuel IH]; cbn [poll]; [intros b; discriminate|].
  apply no_zde_bind; [apply no_zde_readU8|intros status].
  destruct (negb (Z.land status 8 =? 0)); [|apply no_zde_ret].
  apply no_zde_bind; [intros b; discriminate|intros _; exact IH].
Qed.

(** The guard does its work: whatever the device answers and whatever the
    coefficients are, [read] never ends in a [ZeroDivisionError]. *)
Lemma read_no_zero_division (fuel : nat) :
  never_raises ZeroDivisionError (read xchg fuel).
Proof.
  unfold read. cbv zeta.
  repeat first
    [ apply no_zde_ret
    | apply no_zde_on_spi;
      first [apply no_zde_exchange | apply no_zde_poll | apply no_zde_readU24]
    | apply no_zde_lift; first [apply py_int_no_zde | apply py_float_no_zde]
    | apply no_zde_bind; [|intro]
    | (intros s; discriminate)
    | match goal with
      | |- never_raises _ (if (?g =? 0)%float then _ else _) =>
          let G := fresh "G" in
          destruct (g =? 0)%float eqn:G;
          [| apply no_zde_bind;
             [apply no_zde_lift; unfold py_truediv; rewrite G; discriminate
             |intro] ]
      end ].
Qed.

End NoZeroDivision.

(** ** What a call returns *)

Lemma ensures_bind {S A B} (Q : B -> S -> Prop) (c : M S A)
      (k : A -> M S B) :
  (forall a, ensures Q (k a)) -> ensures Q (bind c k).
Proof.
  intros Hk s. unfold bind. destruct (c s) as [[a|e|] s']; trivial.
  apply Hk.
Qed.

Lemma ensures_raise {S A} (Q : A -> S -> Prop) (e : exn) :
  ensures Q (raise e).
Proof. intros s. exact I. Qed.

Section Accessors.
Variable Dev : Type.
Variable xchg : Dev -> list Z -> Z -> option (list Z) * Dev.

(** A driver that [__init__] returns has nothing cached. *)
Lemma init_nothing_cached :
  ensures (fun d (_ : bus Dev) => _temp d = None /\ _press d = None)
          (__init__ xchg).
Proof.
  unfold __init__. apply ensures_bind. intros id.
  destruct (negb (id =? REG.ID_VAL)); [apply ensures_raise|].
  repeat (apply ensures_bind; intro).
  intros s. cbn. split; reflexivity.
Qed.

(** The pair [read] returns is the pair of the values it has cached. *)
Lemma read_returns_cache (fuel : nat) :
  ensures (fun rv (st : bus Dev * driver) => agrees_with_cache rv (snd st))
          (read xchg fuel).
Proof.
  unfold read. cbv zeta. do 10 (apply ensures_bind; intro).
  match goal with |- ensures _ (if ?g then _ else _) => destruct g end.
  - intros s. exact I.
  - do 2 (apply ensures_bind; intro). intros s. cbn. split; reflexivity.
Qed.

Lemma mbar_some (st : bus Dev * driver) (p : float) :
  _press (snd st) = Some p ->
  mbar st = (Ok (1000 * (p / 1.013e2))%float, st).
Proof. intros H. unfold mbar, bind, get_self. rewrite H. reflexivity. Qed.

Lemma mbar_none (st : bus Dev * driver) :
  _press (snd st) = None -> mbar st = (Raise TypeError, st).
Proof. intros H. unfold mbar, bind, get_self. rewrite H. reflexivity. Qed.

(** C7: after a [read] that returned a pair with pressure [p], [mbar]
    returns [1000*(p/1.013e2)], computed in double precision with the
    literal divisor [1.013e2], and changes nothing. *)
Theorem C7_mbar_literal (fuel : nat) (st : bus Dev * driver)
        (t : option float) (p : float) :
  fst (read xchg fuel st) = Ok (RPair t (Some p)) ->
  mbar (snd (read xchg fuel st))
  = (Ok (1000 * (p / 1.013e2))%float, snd (read xchg fuel st)).
Proof.
  intros H. apply mbar_some.
  pose proof (read_returns_cache fuel st) as E.
  destruct (read xchg fuel st) as [r st']. cbn in H. subst r. apply E.
Qed.

(** C8, as far as the code goes: on a freshly constructed driver
    [temperature] and [pressure] return [None], but [mbar] raises
    [TypeError] instead of returning [None]; after a [read] that returned
    a pair, [temperature] and [pressure] return the two values of that
    pair. *)
Theorem C8_accessors (b b' : bus Dev) (d : driver) :
  __init__ xchg b = (Ok d, b') ->
  (temperature (b', d) = (Ok None, (b', d))
   /\ pressure (b', d) = (Ok None, (b', d))
   /\ mbar (b', d) = (Raise TypeError, (b', d)))
  /\ forall fuel t p,
       fst (read xchg fuel (b', d)) = Ok (RPair t p) ->
       let st' := snd (read xchg fuel (b', d)) in
       temperature st' = (Ok t, st') /\ pressure st' = (Ok p, st').
Proof.
  intros H. pose proof (init_nothing_cached b) as E. rewrite H in E.
  destruct E as [Et Ep]. split.
  - unfold temperature, pressure, bind, get_self, ret. cbn [snd].
    rewrite Et, Ep. repeat split. apply mbar_none. exact Ep.
  - intros fuel t p Hr st'. subst st'.
    pose proof (read_returns_cache fuel (b', d)) as R.
    destruct (read xchg fuel (b', d)) as [r st']. cbn in Hr. subst r.
    destruct R as [Rt Rp]. cbn [snd].
    unfold temperature, pressure, bind, get_self, ret.
    rewrite Rt, Rp. split; reflexivity.
Qed.

End Accessors.

Lemma C7_mbar_literal_witness :
  mbar (snd (read Mock.xchg 1 (Mock.fresh 0x58 [], datasheet_driver)))
  = (Ok (1000 * (100653.00897415778 / 1.013e2))%float,
     snd (read Mock.xchg 1 (Mock.fresh 0x58 [], datasheet_driver))).
Proof.
  apply (C7_mbar_literal Mock.t Mock.xchg 1
           (Mock.fresh 0x58 [], datasheet_driver)
           (Some 25.082421875000001%float) 100653.00897415778%float).
  vm_compute. reflexivity.
Defined.

(** The literal divisor matters: with 1013.25 the result would differ. *)
Example mbar_not_1013_25 :
  (1000 * (100653.00897415778 / 1.013e2) =? 993613.1191920808)%float = true
  /\ (100653.00897415778 / 1013.25 * 1000
      =? 1000 * (100653.00897415778 / 1.013e2))%float = false.
Proof. split; vm_compute; reflexivity. Qed.

Lemma C8_accessors_witness :
  let b' := snd (__init__ Mock.xchg (Mock.fresh 0x58 [])) in
  temperature (b', datasheet_driver) = (Ok None, (b', datasheet_driver))
  /\ pressure (b', datasheet_driver) = (Ok None, (b', datasheet_driver))
  /\ mbar (b', datasheet_driver) = (Raise TypeError, (b', datasheet_driver)).
Proof.
  apply (C8_accessors Mock.t Mock.xchg (Mock.fresh 0x58 [])
           (snd (__init__ Mock.xchg (Mock.fresh 0x58 []))) datasheet_driver).
  vm_compute. reflexivity.
Defined.

(** ** The degenerate guard *)

Section Degenerate.
Variable Dev : Type.
Variable xchg : Dev -> list Z -> Z -> option (list Z) * Dev.

Variables (b b1 b2 b3 b4 : bus Dev) (self : driver) (fuel : nat).
Variables (r0 : list Z) (UT UP tf : float) (t_fine : Z).

Hypothesis Htrig : exchange xchg trigger 0 b = (Ok r0, b1).
Hypothesis Hpoll : poll xchg fuel b1 = (Ok tt, b2).
Hypothesis Htemp : _readU24 xchg REG.TEMP_MSB b2 = (Ok UT, b3).
Hypothesis Hfine : py_int (temp_sum self UT) = Ok t_fine.
Hypothesis Hflt : py_float t_fine = Ok tf.
Hypothesis Hpress : _readU24 xchg REG.PRESS_MSB b3 = (Ok UP, b4).
Hypothesis Hguard : (guard_var1 self tf =? 0)%float = true.

(** When the guard fires, [read] stops right there. *)
Lemma read_degenerate :
  read xchg fuel (b, self)
  = (Ok (RInt 0), (b4, set_temp (Some (tf / 5120.0)%float) self)).
Proof.
  rewrite (read_cases Dev xchg b b1 b2 b3 self fuel r0 UT tf t_fine
             Htrig Hpoll Htemp Hfine Hflt).
  cbv zeta. rewrite Hpress, Hguard. reflexivity.
Qed.

(** C2, as far as the code goes: when [var1] is 0.0 at the guard, [read]
    divides by nothing and raises nothing, has cached the temperature
    computed for the call, and leaves the driver usable, its calibration
    set untouched; but what it returns is the bare integer 0 and not the
    pair its docstring announces, so that no temperature is returned. *)
Theorem C2_degenerate_guard :
  let r := read xchg fuel (b, self) in
  fst r = Ok (RInt 0)
  /\ fst r <> Raise ZeroDivisionError
  /\ (forall rv, fst r = Ok rv -> returned_temperature rv = None)
  /\ temperature (snd r) = (Ok (Some (tf / 5120.0)%float), snd r)
  /\ same_calibration self (snd (snd r)).
Proof.
  intros r. subst r. rewrite read_degenerate. cbn [fst snd].
  repeat split; try discriminate.
  intros rv E. injection E as <-. reflexivity.
Qed.

(** C10: when the guard fires, [read] returns the bare integer 0, not a
    pair; the cached temperature is already the new one, and the cached
    pressure is the one held before the call. *)
Theorem C10_degenerate_cache :
  let r := read xchg fuel (b, self) in
  fst r = Ok (RInt 0)
  /\ (forall t p, fst r <> Ok (RPair t p))
  /\ _temp (snd (snd r)) = Some (tf / 5120.0)%float
  /\ _press (snd (snd r)) = _press self.
Proof.
  intros r. subst r. rewrite read_degenerate. cbn [fst snd].
  repeat split. intros t p. discriminate.
Qed.

End Degenerate.

(** The sensor with 0 in [dig_P1] is one the driver can be built on; on
    the fresh driver [read] reaches the guard with [var1 == 0.0] and
    returns the integer 0: no temperature is returned, although 25.08 has
    been computed and cached. *)
Lemma read_on_p1_zero_sensor :
  __init__ Mock.xchg (mkBus p1_zero_sensor [])
  = (Ok p1_zero_driver, mkBus p1_zero_sensor init_reads)
  /\ (guard_var1 p1_zero_driver 128422 =? 0)%float = true
  /\ read Mock.xchg 1 (mkBus p1_zero_sensor init_reads, p1_zero_driver)
     = (Ok (RInt 0),
        (mkBus p1_zero_sensor
           (init_reads
            ++ [Xfer [0x74; 0xFE] 0; Xfer [0xF3] 1; Xfer [0xFA] 3;
                Xfer [0xF7] 3]),
         set_temp (Some 25.082421875000001%float) p1_zero_driver))
  /\ returned_temperature (RInt 0) = None.
Proof. repeat split; vm_compute; reflexivity. Qed.

Lemma C2_degenerate_guard_witness :
  let r := read Mock.xchg 1 (mkBus p1_zero_sensor init_reads,
                             p1_zero_driver) in
  fst r = Ok (RInt 0)
  /\ fst r <> Raise ZeroDivisionError
  /\ (forall rv, fst r = Ok rv -> returned_temperature rv = None)
  /\ temperature (snd r) = (Ok (Some (128422 / 5120.0)%float), snd r)
  /\ same_calibration p1_zero_driver (snd (snd r)).
Proof.
  apply (C2_degenerate_guard Mock.t Mock.xchg
           (mkBus p1_zero_sensor init_reads)
           (mkBus p1_zero_sensor (init_reads ++ [Xfer [0x74; 0xFE] 0]))
           (mkBus p1_zero_sensor
              (init_reads ++ [Xfer [0x74; 0xFE] 0; Xfer [0xF3] 1]))
           (mkBus p1_zero_sensor
              (init_reads
               ++ [Xfer [0x74; 0xFE] 0; Xfer [0xF3] 1; Xfer [0xFA] 3]))
           (mkBus p1_zero_sensor
              (init_reads
               ++ [Xfer [0x74; 0xFE] 0; Xfer [0xF3] 1; Xfer [0xFA] 3;
                   Xfer [0xF7] 3]))
           p1_zero_driver 1 [] 519888%float 415148%float 128422%float
           128422);
    vm_compute; reflexivity.
Defined.

Lemma C10_degenerate_cache_witness :
  let r := read Mock.xchg 1 (Mock.fresh 0x58 [], degenerate_driver) in
  fst r = Ok (RInt 0)
  /\ (forall t p, fst r <> Ok (RPair t p))
  /\ _temp (snd (snd r)) = Some (128422 / 5120.0)%float
  /\ _press (snd (snd r)) = Some 99000%float.
Proof.
  apply (C10_degenerate_cache Mock.t Mock.xchg
           (Mock.fresh 0x58 [])
           (mkBus (Mock.datasheet 0x58 []) [Xfer [0x74; 0xFE] 0])
           (mkBus (Mock.datasheet 0x58 [])
              [Xfer [0x74; 0xFE] 0; Xfer [0xF3] 1])
           (mkBus (Mock.datasheet 0x58 [])
              [Xfer [0x74; 0xFE] 0; Xfer [0xF3] 1; Xfer [0xFA] 3])
           (mkBus (Mock.datasheet 0x58 [])
              [Xfer [0x74; 0xFE] 0; Xfer [0xF3] 1; Xfer [0xFA] 3;
               Xfer [0xF7] 3])
           degenerate_driver 1 [] 519888%float 415148%float 128422%float
           128422);
    vm_compute; reflexivity.
Defined.

(** ** The data sheet's worked example *)

(** C1, as stated, fails: on the data sheet's calibration set and raw
    samples, [read] returns a temperature that is not within 1e-3 of 25.08
    and a pressure that is not within 1e-3 of 100653.3. *)
Lemma C1_golden_not_within_1e3 :
  exists t p,
    fst (read Mock.xchg 1 (Mock.fresh 0x58 [], datasheet_driver))
    = Ok (RPair (Some t) (Some p))
    /\ within 1e-3 t 25.08 = false
    /\ within 1e-3 p 100653.3 = false.
Proof.
  exists 25.082421875000001%float, 100653.00897415778%float.
  repeat split; vm_compute; reflexivity.
Qed.

(** C1, amended: on the data sheet's calibration set (T1=27504, T2=26435,
    T3=-1000, P1=36477, P2=-10685, P3=3024, P4=2855, P5=140, P6=-7,
    P7=15500, P8=-14600, P9=6000) and raw samples UT=519888, UP=415148,
    [read] computes [t_fine = 128422] and returns the pair of a
    temperature within 3e-3 of 25.08 degrees C and a pressure within
    0.3 Pa of 100653.3 Pa. *)
Theorem C1_golden :
  py_int (temp_sum datasheet_driver 519888) = Ok 128422
  /\ exists t p,
       fst (read Mock.xchg 1 (Mock.fresh 0x58 [], datasheet_driver))
       = Ok (RPair (Some t) (Some p))
       /\ within 3e-3 t 25.08 = true
       /\ within 0.3 p 100653.3 = true.
Proof.
  split; [vm_compute; reflexivity|].
  exists 25.082421875000001%float, 100653.00897415778%float.
  repeat split; vm_compute; reflexivity.
Qed.

(** * Further properties of the driver *)

(** ** Decoding what the sensor stores *)

Section Decoding.
Variable Dev : Type.
Variable xchg : Dev -> list Z -> Z -> option (list Z) * Dev.

Lemma le16_bytes (v : Z) :
  byte (v mod 256) /\ byte ((v / 256) mod 256).
Proof. unfold byte. Z.div_mod_to_equations. lia. Qed.

Lemma le16_unsigned (v : Z) :
  0 <= v <= 65535 -> (v / 256) mod 256 * 256 + v mod 256 = v.
Proof. intros H. Z.div_mod_to_equations. lia. Qed.

Lemma le16_signed (v : Z) :
  -32768 <= v < 0 -> (v / 256) mod 256 * 256 + v mod 256 = v + 65536.
Proof. intros H. Z.div_mod_to_equations. lia. Qed.

(** A 16-bit register holding [v], low byte first and in two's
    complement, is read back as [v]: by [_readU16] when [v] is an unsigned
    16-bit value, by [_readS16] when it is a signed one. *)
Theorem read16_round_trip (b : bus Dev) (addr v : Z) (dv' : Dev) :
  xchg (dev b) [Z.lor addr 0x80] 2
  = (Some [v mod 256; (v / 256) mod 256], dv') ->
  let b' := mkBus dv' (log b ++ [Xfer [Z.lor addr 0x80] 2]) in
  (0 <= v <= 65535 -> _readU16 xchg addr b = (Ok v, b'))
  /\ (-32768 <= v <= 32767 -> _readS16 xchg addr b = (Ok v, b')).
Proof.
  intros H b'. destruct (le16_bytes v) as [Hl Hh].
  pose proof (readU16_some Dev xchg b addr _ _ [] dv' H) as E.
  rewrite readU16_value in E by exact Hl. fold b' in E.
  split; intros R.
  - rewrite E, le16_unsigned by exact R. reflexivity.
  - unfold _readS16. step E. unfold ret. f_equal. f_equal.
    destruct (Z_lt_le_dec v 0) as [N|P].
    + rewrite le16_signed by lia.
      destruct (Z.gtb_spec (v + 65536) 32767); lia.
    + rewrite le16_unsigned by lia.
      destruct (Z.gtb_spec v 32767); lia.
Qed.

(** A data register holding the 20-bit sample [u] in its upper 20 bits is
    read back as [float(u)], which is exactly [u] ([int] of it is [u]
    again), whatever its lowest four bits [x] are. *)
Theorem read24_round_trip (b : bus Dev) (addr u x : Z) (dv' : Dev) :
  0 <= u < 2 ^ 20 -> 0 <= x < 16 ->
  xchg (dev b) [Z.lor addr 0x80] 3
  = (Some [u / 4096; (u / 16) mod 256; (u mod 16) * 16 + x], dv') ->
  exists f,
    _readU24 xchg addr b
    = (Ok f, mkBus dv' (log b ++ [Xfer [Z.lor addr 0x80] 3]))
    /\ py_float u = Ok f
    /\ py_int f = Ok u.
Proof.
  intros Hu Hx H. change (2 ^ 20) with 1048576 in Hu.
  assert (B0 : byte (u / 4096)) by (unfold byte; Z.div_mod_to_equations; lia).
  assert (B1 : byte ((u / 16) mod 256))
    by (unfold byte; Z.div_mod_to_equations; lia).
  assert (B2 : byte ((u mod 16) * 16 + x))
    by (unfold byte; Z.div_mod_to_equations; lia).
  assert (V : raw20 (u / 4096) ((u / 16) mod 256) ((u mod 16) * 16 + x) = u).
  { rewrite raw20_value by assumption. Z.div_mod_to_equations. lia. }
  destruct (py_float_exact u) as (f & Hf & Hi).
  { assert (2 ^ 20 < 2 ^ 53) by (apply Z.pow_lt_mono_r; lia).
    change (2 ^ 20) with 1048576 in *. lia. }
  exists f. split; [|split; [exact Hf | exact Hi]].
  rewrite (readU24_some Dev xchg b addr _ _ _ [] dv' H), V, Hf. reflexivity.
Qed.

(** A response that is too short raises [IndexError], and only that does:
    [_readU8] needs one byte, [_readU16] two, [_readU24] three. *)
Theorem short_response_IndexError (b : bus Dev) (addr n : Z)
        (data : list Z) (dv' : Dev) :
  xchg (dev b) [Z.lor addr 0x80] n = (Some data, dv') ->
  (n = 1 ->
   (fst (_readU8 xchg addr b) = Raise IndexError
    <-> (List.length data < 1)%nat))
  /\ (n = 2 ->
      (fst (_readU16 xchg addr b) = Raise IndexError
       <-> (List.length data < 2)%nat))
  /\ (n = 3 ->
      (fst (_readU24 xchg addr b) = Raise IndexError
       <-> (List.length data < 3)%nat)).
Proof.
  intros H. split; [|split]; intros ->.
  - unfold _readU8. step H.
    destruct data; cbn; split; intros E; try reflexivity; try lia.
    discriminate E.
  - unfold _readU16. step H.
    destruct data as [|x0 [|x1 rest]]; cbn; split; intros E;
      try reflexivity; try lia.
    discriminate E.
  - destruct data as [|x0 [|x1 [|x2 rest]]];
      try (unfold _readU24; step H; cbn; split; intros E;
           [lia | reflexivity]).
    rewrite (readU24_some Dev xchg b addr x0 x1 x2 rest dv' H).
    cbn [fst List.length]. split; intros E; [|lia].
    unfold py_float in E.
    destruct (binary_normalize prec emax (raw20 x0 x1 x2) 0 false);
      discriminate E.
Qed.

End Decoding.

(** ** [read], stage by stage *)

Lemma bind_diverge {S A B} (c : M S A) (k : A -> M S B) (s s' : S) :
  c s = (Diverge, s') -> bind c k s = (Diverge, s').
Proof. intros H. unfold bind. now rewrite H. Qed.

Section ReadStages.
Variable Dev : Type.
Variable xchg : Dev -> list Z -> Z -> option (list Z) * Dev.

(** [read] is the case analysis [read_stages]. *)
Lemma read_unfold (fuel : nat) (b : bus Dev) (d : driver) :
  read xchg fuel (b, d) = read_stages xchg fuel b d.
Proof.
  unfold read_stages, temperature_stage.
  destruct (exchange xchg trigger 0 b) as [[r0|e|] b1] eqn:E1;
    [| unfold read; erewrite bind_raise; [reflexivity|];
       apply on_spi_eq; exact E1
     | unfold read; erewrite bind_diverge; [reflexivity|];
       apply on_spi_eq; exact E1 ].
  destruct (poll xchg fuel b1) as [[[]|e|] b2] eqn:E2;
    [| unfold read; step E1; erewrite bind_raise; [reflexivity|];
       apply on_spi_eq; exact E2
     | unfold read; step E1; erewrite bind_diverge; [reflexivity|];
       apply on_spi_eq; exact E2 ].
  destruct (_readU24 xchg REG.TEMP_MSB b2) as [[UT|e|] b3] eqn:E3;
    [| unfold read; step E1; step E2; erewrite bind_raise; [reflexivity|];
       apply on_spi_eq; exact E3
     | unfold read; step E1; step E2; erewrite bind_diverge; [reflexivity|];
       apply on_spi_eq; exact E3 ].
  destruct (py_int (temp_sum d UT)) as [t_fine|e|] eqn:E4;
    [| unfold read; step E1; step E2; step E3;
       unfold get_self at 1; unfold bind at 1; cbn [snd fst]; cbv zeta;
       erewrite bind_raise; [reflexivity|]; unfold lift; f_equal; exact E4
     | unfold read; step E1; step E2; step E3;
       unfold get_self at 1; unfold bind at 1; cbn [snd fst]; cbv zeta;
       erewrite bind_diverge; [reflexivity|]; unfold lift; f_equal;
       exact E4 ].
  destruct (py_float t_fine) as [tf|e|] eqn:E5;
    [ rewrite (read_cases Dev xchg b b1 b2 b3 d fuel r0 UT tf t_fine
                 E1 E2 E3 E4 E5);
      unfold pressure_stage; cbv zeta;
      destruct (_readU24 xchg REG.PRESS_MSB b3) as [[UP|e|] b4]; reflexivity
    | unfold read; step E1; step E2; step E3;
      unfold get_self at 1; unfold bind at 1; cbn [snd fst]; cbv zeta;
      step E4; erewrite bind_raise; [reflexivity|]; unfold lift; f_equal;
      exact E5
    | unfold read; step E1; step E2; step E3;
      unfold get_self at 1; unfold bind at 1; cbn [snd fst]; cbv zeta;
      step E4; erewrite bind_diverge; [reflexivity|]; unfold lift; f_equal;
      exact E5 ].
Qed.

End ReadStages.

Section ReadOutcomes.
Variable Dev : Type.
Variable xchg : Dev -> list Z -> Z -> option (list Z) * Dev.

(** Whatever the device does and however long the model lets the loop run,
    [read] treats the cache as [cache_protocol] says: a returned pair has
    both values present and both are the new cached values; the early
    return gives 0 and has cached a temperature only; a failure has
    changed nothing, or the cached temperature only.  Nothing else of the
    driver ever changes. *)
Theorem read_cache_protocol (fuel : nat) (b : bus Dev) (d : driver) :
  cache_protocol d (fst (read xchg fuel (b, d)))
                 (snd (snd (read xchg fuel (b, d)))).
Proof.
  rewrite read_unfold.
  unfold read_stages, temperature_stage, pressure_stage. cbv zeta.
  destruct (exchange xchg trigger 0 b) as [[r0|e|] b1];
    try (cbn; left; reflexivity).
  destruct (poll xchg fuel b1) as [[[]|e|] b2];
    try (cbn; left; reflexivity).
  destruct (_readU24 xchg REG.TEMP_MSB b2) as [[UT|e|] b3];
    try (cbn; left; reflexivity).
  destruct (py_int (temp_sum d UT)) as [t_fine|e|];
    try (cbn; left; reflexivity).
  destruct (py_float t_fine) as [tf|e|]; try (cbn; left; reflexivity).
  destruct (_readU24 xchg REG.PRESS_MSB b3) as [[UP|e|] b4];
    try (cbn; right; eexists; reflexivity).
  destruct (guard_var1 d tf =? 0)%float; cbn.
  - split; [reflexivity | eexists; reflexivity].
  - do 2 eexists. repeat split.
Qed.

Variables (b b1 b2 b3 b4 : bus Dev) (self : driver) (fuel : nat).
Variables (r0 : list Z) (UT UP tf : float) (t_fine : Z).

Hypothesis Htrig : exchange xchg trigger 0 b = (Ok r0, b1).
Hypothesis Hpoll : poll xchg fuel b1 = (Ok tt, b2).
Hypothesis Htemp : _readU24 xchg REG.TEMP_MSB b2 = (Ok UT, b3).
Hypothesis Hfine : py_int (temp_sum self UT) = Ok t_fine.
Hypothesis Hflt : py_float t_fine = Ok tf.

(** When every stage goes through and the guarded [var1] is not zero,
    [read] returns the pair of the temperature [t_fine/5120.0] and of the
    compensated pressure, and has cached both. *)
Theorem read_success :
  _readU24 xchg REG.PRESS_MSB b3 = (Ok UP, b4) ->
  (guard_var1 self tf =? 0)%float = false ->
  let t := (tf / 5120.0)%float in
  let p := pressure_after_guard self tf UP in
  read xchg fuel (b, self)
  = (Ok (RPair (Some t) (Some p)),
     (b4, set_press (Some p) (set_temp (Some t) self))).
Proof.
  intros Hpress Hguard t p.
  rewrite (read_cases Dev xchg b b1 b2 b3 self fuel r0 UT tf t_fine
             Htrig Hpoll Htemp Hfine Hflt).
  cbv zeta. rewrite Hpress, Hguard. reflexivity.
Qed.

(** [read] is not atomic: when the pressure burst fails, after the
    temperature part has gone through, the exception leaves the new
    temperature cached next to the pressure of an earlier call. *)
Theorem read_pressure_burst_fails (e : exn) :
  _readU24 xchg REG.PRESS_MSB b3 = (Raise e, b4) ->
  let r := read xchg fuel (b, self) in
  fst r = Raise e
  /\ temperature (snd r) = (Ok (Some (tf / 5120.0)%float), snd r)
  /\ pressure (snd r) = (Ok (_press self), snd r)
  /\ same_calibration self (snd (snd r)).
Proof.
  intros Hpress r. subst r.
  rewrite (read_cases Dev xchg b b1 b2 b3 self fuel r0 UT tf t_fine
             Htrig Hpoll Htemp Hfine Hflt).
  cbv zeta. rewrite Hpress. cbn [fst snd]. repeat split.
Qed.

End ReadOutcomes.

(** ** What goes over the bus *)

Section BusTraffic.
Variable Dev : Type.
Variable xchg : Dev -> list Z -> Z -> option (list Z) * Dev.

Lemma exchange_no_diverge (b : bus Dev) (out : list Z) (n : Z) :
  fst (exchange xchg out n b) <> Diverge.
Proof.
  unfold exchange. destruct (xchg (dev b) out n) as [[data|] dv'];
    discriminate.
Qed.

Lemma readU8_log (b : bus Dev) (addr : Z) :
  log (snd (_readU8 xchg addr b)) = log b ++ [Xfer [Z.lor addr 0x80] 1].
Proof.
  unfold _readU8, bind, exchange.
  destruct (xchg (dev b) [Z.lor addr 0x80] 1) as [[data|] dv']; reflexivity.
Qed.

Lemma readU8_no_diverge (b : bus Dev) (addr : Z) :
  fst (_readU8 xchg addr b) <> Diverge.
Proof.
  unfold _readU8, bind, exchange.
  destruct (xchg (dev b) [Z.lor addr 0x80] 1) as [[[|x data]|] dv'];
    discriminate.
Qed.

Lemma readU24_no_diverge (b : bus Dev) (addr : Z) :
  fst (_readU24 xchg addr b) <> Diverge.
Proof.
  unfold _readU24, bind, exchange.
  destruct (xchg (dev b) [Z.lor addr 0x80] 3) as [[data|] dv'];
    [|discriminate].
  destruct data as [|x0 [|x1 [|x2 rest]]]; cbn; try discriminate.
  unfold py_float.
  destruct (binary_normalize prec emax _ 0 false); discriminate.
Qed.

Lemma poll_unfold (fuel : nat) (b : bus Dev) :
  poll xchg (S fuel) b
  = match _readU8 xchg REG.STATUS b with
    | (Ok status, b1) =>
        if negb (Z.land status 0x08 =? 0)
        then poll xchg fuel (mkBus (dev b1) (log b1 ++ [Sleep 0.01%float]))
        else (Ok tt, b1)
    | (Raise e, b1) => (Raise e, b1)
    | (Diverge, b1) => (Diverge, b1)
    end.
Proof.
  cbn [poll]. unfold bind at 1.
  destruct (_readU8 xchg REG.STATUS b) as [[status|e|] b1]; try reflexivity.
  destruct (negb (Z.land status 8 =? 0)); reflexivity.
Qed.

(** The polling loop reads the status and sleeps, [k] times over, and then
    either reads the status a last time or, with [k = fuel], is still
    running. *)
Lemma poll_log (fuel : nat) :
  forall b : bus Dev,
    exists k,
      match fst (poll xchg fuel b) with
      | Diverge =>
          k = fuel /\ log (snd (poll xchg fuel b)) = log b ++ polling k
      | _ =>
          (k < fuel)%nat
          /\ log (snd (poll xchg fuel b))
             = log b ++ polling k ++ [Xfer [0xF3] 1]
      end.
Proof.
  induction fuel as [|fuel IH]; intros b.
  - exists O. cbn. now rewrite app_nil_r.
  - rewrite poll_unfold.
    pose proof (readU8_log b REG.STATUS) as L.
    pose proof (readU8_no_diverge b REG.STATUS) as ND.
    destruct (_readU8 xchg REG.STATUS b) as [[status|e|] b1];
      cbn [fst snd] in *;
      [| exists O; split; [lia | exact L] | congruence].
    destruct (negb (Z.land status 8 =? 0));
      [| exists O; cbn; split; [lia | exact L] ].
    destruct (IH (mkBus (dev b1) (log b1 ++ [Sleep 0.01%float])))
      as (k & Hk).
    exists (S k).
    destruct (poll xchg fuel (mkBus (dev b1) (log b1 ++ [Sleep 0.01%float])))
      as [[[]|e|] b2]; cbn [fst snd log] in *;
      destruct Hk as [Hk ->]; rewrite L; cbn [polling];
      (split; [lia | rewrite <- !app_assoc; reflexivity]).
Qed.

(** Closes a goal on the log once the logs of the stages are known. *)
Ltac traffic :=
  cbn [fst snd firstn polling];
  repeat match goal with
         | H : log _ = _ |- _ => rewrite H; clear H
         end;
  unfold trigger; rewrite <- ?app_assoc; cbn [app]; rewrite ?app_nil_r;
  repeat split; intros; try discriminate; try congruence; try lia.

(** Whatever the device answers, the bus traffic of [read] is the trigger
    write, then [k] polls that found the sensor measuring, then a first
    part of: the final status read, the temperature burst, the pressure
    burst, in this order.  All three are there when [read] returns a
    value; when the loop is still running after [fuel] polls, none is. *)
Theorem read_bus_traffic (fuel : nat) (b : bus Dev) (d : driver) :
  let r := read xchg fuel (b, d) in
  exists k n,
    (k <= fuel)%nat
    /\ log (fst (snd r))
       = log b
         ++ Xfer [Z.land REG.CONTROL (Z.lnot 0x80); 0xFE] 0
         :: polling k
         ++ firstn n [Xfer [Z.lor REG.STATUS 0x80] 1;
                      Xfer [Z.lor REG.TEMP_MSB 0x80] 3;
                      Xfer [Z.lor REG.PRESS_MSB 0x80] 3]
    /\ (forall rv, fst r = Ok rv -> n = 3%nat)
    /\ (fst r = Diverge -> k = fuel /\ n = 0%nat).
Proof.
  cbv zeta. rewrite read_unfold.
  unfold read_stages, temperature_stage, pressure_stage. cbv zeta.
  pose proof (exchange_log xchg b trigger 0) as L1.
  pose proof (exchange_no_diverge b trigger 0) as N1.
  destruct (exchange xchg trigger 0 b) as [[r0|e|] b1];
    cbn [fst snd] in L1, N1; [| exists O, O; traffic | congruence].
  destruct (poll_log fuel b1) as (k & Hk).
  destruct (poll xchg fuel b1) as [[[]|e|] b2]; cbn [fst snd] in Hk;
    destruct Hk as [Hk L2];
    [| exists k, 1%nat; traffic | exists k, 0%nat; traffic].
  pose proof (readU24_log Dev xchg b2 REG.TEMP_MSB) as L3.
  pose proof (readU24_no_diverge b2 REG.TEMP_MSB) as N3.
  destruct (_readU24 xchg REG.TEMP_MSB b2) as [[UT|e|] b3];
    cbn [fst snd] in L3, N3; [| exists k, 2%nat; traffic | congruence].
  destruct (py_int (temp_sum d UT)) as [t_fine|e|] eqn:E4;
    [| exists k, 2%nat; traffic
     | unfold py_int in E4; destruct (Prim2SF (temp_sum d UT));
       discriminate ].
  destruct (py_float t_fine) as [tf|e|] eqn:E5;
    [| exists k, 2%nat; traffic
     | unfold py_float in E5;
       destruct (binary_normalize prec emax t_fine 0 false); discriminate ].
  pose proof (readU24_log Dev xchg b3 REG.PRESS_MSB) as L4.
  pose proof (readU24_no_diverge b3 REG.PRESS_MSB) as N4.
  exists k, 3%nat.
  destruct (_readU24 xchg REG.PRESS_MSB b3) as [[UP|e|] b4];
    cbn [fst snd] in L4, N4; [| | congruence];
    try destruct (guard_var1 d tf =? 0)%float; traffic.
Qed.

(** The loop has no way out but a "ready" status: on a sensor that keeps
    reporting "measuring", [read] is still polling after any number of
    polls; it has read no data register and has not touched the driver. *)
Theorem read_never_gives_up (I : Dev -> Prop) (b : bus Dev) (d : driver)
        (r0 : list Z) (dv1 : Dev) (fuel : nat) :
  stuck_measuring xchg I ->
  xchg (dev b) trigger 0 = (Some r0, dv1) -> I dv1 ->
  let r := read xchg fuel (b, d) in
  fst r = Diverge
  /\ snd (snd r) = d
  /\ log (fst (snd r)) = log b ++ Xfer trigger 0 :: polling fuel.
Proof.
  intros Hstuck Htrig HI r. subst r.
  assert (P : forall fuel dv l, I dv ->
            exists dv', I dv'
                        /\ poll xchg fuel (mkBus dv l)
                           = (Diverge, mkBus dv' (l ++ polling fuel))).
  { clear - Hstuck. induction fuel as [|fuel IH]; intros dv l Hdv.
    - exists dv. split; [exact Hdv|]. cbn. now rewrite app_nil_r.
    - destruct (Hstuck dv Hdv) as (status & rest & dv' & Hx & Hs & Hdv').
      destruct (IH dv' ((l ++ [Xfer [Z.lor REG.STATUS 0x80] 1])
                        ++ [Sleep 0.01%float]) Hdv')
        as (dv2 & Hdv2 & Hp).
      exists dv2. split; [exact Hdv2|]. rewrite poll_unfold.
      rewrite (readU8_some Dev xchg (mkBus dv l) REG.STATUS status rest dv'
                 Hx).
      apply Z.eqb_neq in Hs. rewrite Hs. cbn [negb dev log]. rewrite Hp.
      cbn [polling]. rewrite <- !app_assoc. reflexivity. }
  destruct (P fuel dv1 (log b ++ [Xfer trigger 0]) HI) as (dv' & _ & Hp).
  rewrite read_unfold. unfold read_stages.
  rewrite (exchange_some xchg b trigger r0 0 dv1 Htrig), Hp.
  cbn [fst snd log]. rewrite <- app_assoc. repeat split.
Qed.

End BusTraffic.

(** ** The exceptions of the driver *)

Lemma raises_only_bind {S A B} (l : list exn) (c : M S A) (k : A -> M S B) :
  raises_only l c -> (forall a, raises_only l (k a)) ->
  raises_only l (bind c k).
Proof.
  intros Hc Hk s e. unfold bind. specialize (Hc s).
  destruct (c s) as [[a|e'|] s']; cbn [fst] in *.
  - apply Hk.
  - intros E. apply Hc. congruence.
  - discriminate.
Qed.

Lemma raises_only_ret {S A} (l : list exn) (a : A) :
  raises_only l (ret (S := S) a).
Proof. intros s e. discriminate. Qed.

Lemma raises_only_lift {S A} (l : list exn) (o : outcome A) :
  (forall e, o = Raise e -> In e l) -> raises_only l (lift (S := S) o).
Proof. intros H s e. apply H. Qed.

Lemma py_index_raises (data : list Z) (i : nat) (e : exn) :
  py_index data i = Raise e -> e = IndexError.
Proof.
  unfold py_index. destruct (nth_error data i); congruence.
Qed.

Lemma py_float_raises (z : Z) (e : exn) :
  py_float z = Raise e -> e = OverflowError.
Proof.
  unfold py_float. destruct (binary_normalize prec emax z 0 false);
    congruence.
Qed.

Lemma py_int_raises (x : float) (e : exn) :
  py_int x = Raise e -> e = ValueError \/ e = OverflowError.
Proof.
  unfold py_int. destruct (Prim2SF x); intros E; try discriminate E;
    injection E as <-; auto.
Qed.

Section Exceptions.
Variable Dev : Type.
Variable xchg : Dev -> list Z -> Z -> option (list Z) * Dev.

Lemma exchange_raises (l : list exn) (out : list Z) (n : Z) :
  In SpiIOError l -> raises_only l (exchange xchg out n).
Proof.
  intros H b e. unfold exchange.
  destruct (xchg (dev b) out n) as [[data|] dv']; cbn; congruence.
Qed.

(** Solves [raises_only l c] for a straight-line [c], given that [l] holds
    the exceptions of the exchange, of indexing and of [float]. *)
Ltac raises :=
  repeat first
    [ apply raises_only_ret
    | apply exchange_raises; assumption
    | apply raises_only_lift; intros ? ?E;
      first [ apply py_index_raises in E | apply py_float_raises in E ];
      subst; assumption
    | apply raises_only_bind; [|intro] ].

Lemma readU8_raises (l : list exn) (addr : Z) :
  In SpiIOError l -> In IndexError l -> raises_only l (_readU8 xchg addr).
Proof. intros H1 H2. unfold _readU8. raises. Qed.

Lemma readU16_raises (l : list exn) (addr : Z) :
  In SpiIOError l -> In IndexError l -> raises_only l (_readU16 xchg addr).
Proof. intros H1 H2. unfold _readU16. raises. Qed.

Lemma readS16_raises (l : list exn) (addr : Z) :
  In SpiIOError l -> In IndexError l -> raises_only l (_readS16 xchg addr).
Proof.
  intros H1 H2. unfold _readS16.
  apply raises_only_bind; [apply readU16_raises; assumption|intro].
  apply raises_only_ret.
Qed.

Lemma readU24_raises (l : list exn) (addr : Z) :
  In SpiIOError l -> In IndexError l -> In OverflowError l ->
  raises_only l (_readU24 xchg addr).
Proof. intros H1 H2 H3. unfold _readU24. raises. Qed.

Lemma poll_raises (l : list exn) (fuel : nat) :
  In SpiIOError l -> In IndexError l -> raises_only l (poll xchg fuel).
Proof.
  intros H1 H2. induction fuel as [|fuel IH]; cbn [poll].
  - intros b e. discriminate.
  - apply raises_only_bind; [apply readU8_raises; assumption|intro status].
    destruct (negb (Z.land status 8 =? 0)); [|apply raises_only_ret].
    apply raises_only_bind; [|intro; exact IH].
    intros b e. discriminate.
Qed.

(** Whatever the device answers, [read] can end in four exceptions only:
    a transport failure, a response that is too short, and the two
    failures of [int] on a temperature that is not finite.  In particular
    it never raises [ZeroDivisionError] or [TypeError]. *)
Theorem read_raises_only (fuel : nat) :
  raises_only [SpiIOError; IndexError; ValueError; OverflowError]
              (read xchg fuel).
Proof.
  intros [b d] e. rewrite read_unfold.
  unfold read_stages, temperature_stage, pressure_stage. cbv zeta.
  set (l := [SpiIOError; IndexError; ValueError; OverflowError]).
  assert (I1 : In SpiIOError l) by (cbn; auto).
  assert (I2 : In IndexError l) by (cbn; auto).
  assert (I3 : In ValueError l) by (cbn; auto).
  assert (I4 : In OverflowError l) by (cbn; auto).
  pose proof (exchange_raises l trigger 0 I1 b) as R1.
  destruct (exchange xchg trigger 0 b) as [[r0|e1|] b1]; cbn [fst] in *;
    [| intros E; injection E as <-; apply R1; reflexivity
     | discriminate].
  pose proof (poll_raises l fuel I1 I2 b1) as R2.
  destruct (poll xchg fuel b1) as [[[]|e2|] b2]; cbn [fst] in *;
    [| intros E; injection E as <-; apply R2; reflexivity
     | discriminate].
  pose proof (readU24_raises l REG.TEMP_MSB I1 I2 I4 b2) as R3.
  destruct (_readU24 xchg REG.TEMP_MSB b2) as [[UT|e3|] b3]; cbn [fst] in *;
    [| intros E; injection E as <-; apply R3; reflexivity
     | discriminate].
  destruct (py_int (temp_sum d UT)) as [t_fine|e4|] eqn:E4; cbn [fst];
    [| intros E; injection E as <-;
       destruct (py_int_raises _ _ E4) as [-> | ->]; assumption
     | discriminate].
  destruct (py_float t_fine) as [tf|e5|] eqn:E5; cbn [fst];
    [| intros E; injection E as <-;
       rewrite (py_float_raises _ _ E5); assumption
     | discriminate].
  pose proof (readU24_raises l REG.PRESS_MSB I1 I2 I4 b3) as R4.
  destruct (_readU24 xchg REG.PRESS_MSB b3) as [[UP|e6|] b4]; cbn [fst] in *;
    [| intros E; injection E as <-; apply R4; reflexivity
     | discriminate].
  destruct (guard_var1 d tf =? 0)%float; discriminate.
Qed.

(** [__init__] can end in four exceptions only: the identity mismatch, a
    transport failure, a response that is too short, and [OverflowError]
    from [float] (which takes a byte far out of range). *)
Theorem init_raises_only :
  raises_only [RuntimeError "Not a BMP280"; SpiIOError; IndexError;
               OverflowError]
              (__init__ xchg).
Proof.
  set (l := [RuntimeError "Not a BMP280"; SpiIOError; IndexError;
             OverflowError]).
  assert (I0 : In (RuntimeError "Not a BMP280") l) by (cbn; auto).
  assert (I1 : In SpiIOError l) by (cbn; auto).
  assert (I2 : In IndexError l) by (cbn; auto).
  assert (I4 : In OverflowError l) by (cbn; auto).
  unfold __init__.
  apply raises_only_bind; [apply readU8_raises; assumption|intro id].
  destruct (negb (id =? REG.ID_VAL)).
  { intros b e E. injection E as <-. exact I0. }
  repeat first
    [ apply raises_only_ret
    | apply readU16_raises; assumption
    | apply readS16_raises; assumption
    | apply raises_only_lift; intros ? ?E; apply py_float_raises in E;
      subst; assumption
    | apply raises_only_bind; [|intro] ].
Qed.

End Exceptions.

(** ** Construction *)

Section Construction.
Variable Dev : Type.
Variable xchg : Dev -> list Z -> Z -> option (list Z) * Dev.

Lemma readU16_log (b : bus Dev) (addr : Z) :
  log (snd (_readU16 xchg addr b)) = log b ++ [Xfer [Z.lor addr 0x80] 2].
Proof.
  unfold _readU16, bind, exchange.
  destruct (xchg (dev b) [Z.lor addr 0x80] 2) as [[data|] dv']; cbn;
    [|reflexivity].
  destruct data as [|x0 [|x1 rest]]; reflexivity.
Qed.

Lemma readS16_log (b : bus Dev) (addr : Z) :
  log (snd (_readS16 xchg addr b)) = log b ++ [Xfer [Z.lor addr 0x80] 2].
Proof.
  unfold _readS16, bind. pose proof (readU16_log b addr) as L.
  destruct (_readU16 xchg addr b) as [[u|e|] b1]; exact L.
Qed.

Lemma follows_plan_nil {A} (a : A) :
  follows_plan xchg [] (ret a).
Proof.
  intros b. cbn. rewrite app_nil_r. split; [reflexivity|].
  split; [intros _; now exists a | reflexivity].
Qed.

(** Closes the case of a transaction that did not go well. *)
Ltac plan_fails :=
  cbn; split;
  [ reflexivity
  | split; [discriminate | intros [? E]; discriminate E] ].

Lemma follows_plan_id {A} (r : Z) (rest : list (reg_kind * Z)) (e : exn)
      (c : M (bus Dev) A) :
  follows_plan xchg rest c ->
  follows_plan xchg ((IdReg, r) :: rest)
    (bind (_readU8 xchg r)
          (fun id => if negb (id =? REG.ID_VAL) then raise e else c)).
Proof.
  intros Hc b. cbn [first_failure map]. unfold transaction.
  unfold _readU8, bind, exchange, lift, raise. cbn [plan_event fst snd].
  destruct (xchg (dev b) [Z.lor r 128] 1) as [[[|id data]|] dv'];
    try plan_fails.
  cbn [py_index nth_error]. destruct (id =? REG.ID_VAL); [|plan_fails].
  cbn [negb].
  destruct (Hc (mkBus dv' (log b ++ [Xfer [Z.lor r 128] 1]))) as [L R].
  cbn [dev log] in L, R.
  destruct (first_failure xchg rest dv') as [n all]. cbn [fst snd] in *.
  rewrite L. cbn [firstn]. rewrite <- app_assoc. split; [reflexivity|exact R].
Qed.

Lemma follows_plan_unsigned {A} (r : Z) (rest : list (reg_kind * Z))
      (k : float -> M (bus Dev) A) :
  (forall f, follows_plan xchg rest (k f)) ->
  follows_plan xchg ((UnsignedReg, r) :: rest)
    (bind (_readU16 xchg r) (fun u => bind (lift (py_float u)) k)).
Proof.
  intros Hk b. cbn [first_failure map]. unfold transaction.
  unfold _readU16, bind, exchange, lift, ret. cbn [plan_event fst snd].
  destruct (xchg (dev b) [Z.lor r 128] 2) as [[[|lo [|hi data]]|] dv'];
    try plan_fails.
  cbn [py_index nth_error]. unfold converts.
  destruct (py_float (Z.lor (Z.shiftl hi 8) lo)) as [f|e|]; try plan_fails.
  destruct (Hk f (mkBus dv' (log b ++ [Xfer [Z.lor r 128] 2]))) as [L R].
  cbn [dev log] in L, R.
  destruct (first_failure xchg rest dv') as [n all]. cbn [fst snd] in *.
  rewrite L. cbn [firstn]. rewrite <- app_assoc. split; [reflexivity|exact R].
Qed.

Lemma follows_plan_signed {A} (r : Z) (rest : list (reg_kind * Z))
      (k : float -> M (bus Dev) A) :
  (forall f, follows_plan xchg rest (k f)) ->
  follows_plan xchg ((SignedReg, r) :: rest)
    (bind (_readS16 xchg r) (fun u => bind (lift (py_float u)) k)).
Proof.
  intros Hk b. cbn [first_failure map]. unfold transaction.
  unfold _readS16, _readU16, bind, exchange, lift, ret.
  cbn [plan_event fst snd].
  destruct (xchg (dev b) [Z.lor r 128] 2) as [[[|lo [|hi data]]|] dv'];
    try plan_fails.
  cbn [py_index nth_error]. cbv zeta. unfold converts.
  destruct (py_float _) as [f|e|]; try plan_fails.
  destruct (Hk f (mkBus dv' (log b ++ [Xfer [Z.lor r 128] 2]))) as [L R].
  cbn [dev log] in L, R.
  destruct (first_failure xchg rest dv') as [n all]. cbn [fst snd] in *.
  rewrite L. cbn [firstn]. rewrite <- app_assoc. split; [reflexivity|exact R].
Qed.

Lemma init_follows_plan : follows_plan xchg init_plan (__init__ xchg).
Proof.
  unfold init_plan, __init__. apply follows_plan_id.
  repeat (first [apply follows_plan_unsigned | apply follows_plan_signed];
          intro).
  apply follows_plan_nil.
Qed.

Lemma first_failure_bounds (plan : list (reg_kind * Z)) (dv : Dev) :
  (fst (first_failure xchg plan dv) <= List.length plan)%nat
  /\ (plan <> [] -> 1 <= fst (first_failure xchg plan dv))%nat.
Proof.
  revert dv. induction plan as [|[k r] rest IH]; intros dv.
  - cbn. split; [lia | congruence].
  - cbn [first_failure]. destruct (transaction xchg k r dv) as [[|] dv'].
    + specialize (IH dv'). destruct (first_failure xchg rest dv') as [n all].
      cbn in *. lia.
    + cbn. lia.
Qed.

Lemma first_failure_all (plan : list (reg_kind * Z)) (dv : Dev) :
  snd (first_failure xchg plan dv) = true ->
  fst (first_failure xchg plan dv) = List.length plan.
Proof.
  revert dv. induction plan as [|[k r] rest IH]; intros dv;
    cbn [first_failure]; [reflexivity|].
  destruct (transaction xchg k r dv) as [[|] dv']; [|discriminate].
  specialize (IH dv'). destruct (first_failure xchg rest dv') as [m all].
  cbn in *. intros E. f_equal. exact (IH E).
Qed.

(** Whatever the device answers, [__init__] goes through a fixed list of
    transactions: the read of the identity register, then one two-byte
    read for each of the twelve coefficient registers, in the order T1,
    T2, T3, P1, ..., P9.  It stops at the first of them that does not go
    well (no answer, an answer that is too short, another identity than
    0x58, a value [float] refuses): the log holds the transactions up to
    and including that one and nothing after it.  It returns a driver
    exactly when all thirteen went well, and it never writes to the
    sensor. *)
Theorem init_bus_traffic (b : bus Dev) :
  let n := fst (first_failure xchg init_plan (dev b)) in
  log (snd (__init__ xchg b)) = log b ++ firstn n init_reads
  /\ (1 <= n <= 13)%nat
  /\ (snd (first_failure xchg init_plan (dev b)) = true
      <-> exists d, fst (__init__ xchg b) = Ok d)
  /\ ((exists d, fst (__init__ xchg b) = Ok d) -> n = 13%nat).
Proof.
  intros n. destruct (init_follows_plan b) as [L R].
  destruct (first_failure_bounds init_plan (dev b)) as [U Lo].
  fold n in U, Lo. cbn [List.length init_plan] in U.
  assert (1 <= n)%nat by (apply Lo; discriminate).
  split; [exact L|]. split; [lia|]. split; [exact R|].
  intros Hd. apply R in Hd.
  exact (first_failure_all init_plan (dev b) Hd).
Qed.

Lemma readU16_le16 (dv dv' : Dev) (l : list event) (r v : Z) :
  xchg dv [Z.lor r 0x80] 2 = (Some [v mod 256; (v / 256) mod 256], dv') ->
  0 <= v <= 65535 ->
  _readU16 xchg r (mkBus dv l)
  = (Ok v, mkBus dv' (l ++ [Xfer [Z.lor r 0x80] 2])).
Proof.
  intros H R. destruct (le16_bytes v) as [Hl Hh].
  rewrite (readU16_some Dev xchg (mkBus dv l) r _ _ [] dv' H).
  rewrite readU16_value, le16_unsigned by assumption. reflexivity.
Qed.

Lemma readS16_le16 (dv dv' : Dev) (l : list event) (r v : Z) :
  xchg dv [Z.lor r 0x80] 2 = (Some [v mod 256; (v / 256) mod 256], dv') ->
  -32768 <= v <= 32767 ->
  _readS16 xchg r (mkBus dv l)
  = (Ok v, mkBus dv' (l ++ [Xfer [Z.lor r 0x80] 2])).
Proof.
  intros H R. destruct (le16_bytes v) as [Hl Hh].
  pose proof (readU16_some Dev xchg (mkBus dv l) r _ _ [] dv' H) as E.
  rewrite readU16_value in E by exact Hl.
  unfold _readS16. step E. unfold ret. cbn [log dev]. f_equal. f_equal.
  destruct (Z_lt_le_dec v 0) as [N|P].
  - rewrite le16_signed by lia.
    destruct (Z.gtb_spec (v + 65536) 32767); lia.
  - rewrite le16_unsigned by lia.
    destruct (Z.gtb_spec v 32767); lia.
Qed.

Variable I : Dev -> Prop.
Variable regs : Z -> Z.
Hypothesis Hfile : register_file xchg I REG.ID_VAL regs.

Lemma float_16bit (v : Z) :
  -32768 <= v <= 65535 -> exists f, py_float v = Ok f /\ py_int f = Ok v.
Proof.
  intros H. apply py_float_exact.
  assert (2 ^ 16 < 2 ^ 53) by (apply Z.pow_lt_mono_r; lia).
  change (2 ^ 16) with 65536 in *. lia.
Qed.

Lemma init_step_unsigned (dv : Dev) (r : Z) :
  I dv -> In r coefficient_registers -> 0 <= regs r <= 65535 ->
  exists dv' f,
    I dv' /\ py_float (regs r) = Ok f /\ py_int f = Ok (regs r)
    /\ forall l,
         _readU16 xchg r (mkBus dv l)
         = (Ok (regs r), mkBus dv' (l ++ [Xfer [Z.lor r 0x80] 2])).
Proof.
  intros Hdv Hin R.
  destruct (proj2 Hfile dv r Hdv Hin) as (dv' & Hx & Hdv').
  destruct (float_16bit (regs r)) as (f & Hf & Hi); [lia|].
  exists dv', f. repeat split; trivial.
  intros l. apply readU16_le16; assumption.
Qed.

Lemma init_step_signed (dv : Dev) (r : Z) :
  I dv -> In r coefficient_registers -> -32768 <= regs r <= 32767 ->
  exists dv' f,
    I dv' /\ py_float (regs r) = Ok f /\ py_int f = Ok (regs r)
    /\ forall l,
         _readS16 xchg r (mkBus dv l)
         = (Ok (regs r), mkBus dv' (l ++ [Xfer [Z.lor r 0x80] 2])).
Proof.
  intros Hdv Hin R.
  destruct (proj2 Hfile dv r Hdv Hin) as (dv' & Hx & Hdv').
  destruct (float_16bit (regs r)) as (f & Hf & Hi); [lia|].
  exists dv', f. repeat split; trivial.
  intros l. apply readS16_le16; assumption.
Qed.

End Construction.

Section Calibration.
Variable Dev : Type.
Variable xchg : Dev -> list Z -> Z -> option (list Z) * Dev.

(** On a sensor that answers the identity register with 0x58 and each
    coefficient register with the two bytes, low byte first and in two's
    complement, of the value it holds ([T1] and [P1] unsigned 16-bit, the
    others signed 16-bit), [__init__] returns a driver with nothing cached
    whose twelve coefficients are the floats of these values, each of them
    exact ([int] of it is the value again), after the thirteen reads of
    [init_reads]. *)
Theorem init_decodes_calibration (I : Dev -> Prop) (regs : Z -> Z)
        (b : bus Dev) :
  register_file xchg I REG.ID_VAL regs ->
  I (dev b) ->
  (forall r, In r coefficient_registers -> coefficient_range r (regs r)) ->
  exists d b',
    __init__ xchg b = (Ok d, b')
    /\ I (dev b')
    /\ log b' = log b ++ init_reads
    /\ _temp d = None /\ _press d = None
    /\ map (fun r => py_float (regs r)) coefficient_registers
       = map Ok (coefficients d)
    /\ map py_int (coefficients d)
       = map (fun r => Ok (regs r)) coefficient_registers.
Proof.
  intros Hfile HI Hrange. destruct b as [dv0 l]. cbn [dev log] in *.
  destruct (proj1 Hfile dv0 HI) as (dv1 & Hid & H1).
  assert (N1 : In REG.T1 coefficient_registers) by (cbn; tauto).
  pose proof (Hrange REG.T1 N1) as R1.
  destruct (init_step_unsigned Dev xchg I regs Hfile dv1 REG.T1 H1 N1 R1)
    as (dv2 & f1 & H2 & F1 & G1 & E1).
  assert (N2 : In REG.T2 coefficient_registers) by (cbn; tauto).
  pose proof (Hrange REG.T2 N2) as R2.
  destruct (init_step_signed Dev xchg I regs Hfile dv2 REG.T2 H2 N2 R2)
    as (dv3 & f2 & H3 & F2 & G2 & E2).
  assert (N3 : In REG.T3 coefficient_registers) by (cbn; tauto).
  pose proof (Hrange REG.T3 N3) as R3.
  destruct (init_step_signed Dev xchg I regs Hfile dv3 REG.T3 H3 N3 R3)
    as (dv4 & f3 & H4 & F3 & G3 & E3).
  assert (N4 : In REG.P1 coefficient_registers) by (cbn; tauto).
  pose proof (Hrange REG.P1 N4) as R4.
  destruct (init_step_unsigned Dev xchg I regs Hfile dv4 REG.P1 H4 N4 R4)
    as (dv5 & f4 & H5 & F4 & G4 & E4).
  assert (N5 : In REG.P2 coefficient_registers) by (cbn; tauto).
  pose proof (Hrange REG.P2 N5) as R5.
  destruct (init_step_signed Dev xchg I regs Hfile dv5 REG.P2 H5 N5 R5)
    as (dv6 & f5 & H6 & F5 & G5 & E5).
  assert (N6 : In REG.P3 coefficient_registers) by (cbn; tauto).
  pose proof (Hrange REG.P3 N6) as R6.
  destruct (init_step_signed Dev xchg I regs Hfile dv6 REG.P3 H6 N6 R6)
    as (dv7 & f6 & H7 & F6 & G6 & E6).
  assert (N7 : In REG.P4 coefficient_registers) by (cbn; tauto).
  pose proof (Hrange REG.P4 N7) as R7.
  destruct (init_step_signed Dev xchg I regs Hfile dv7 REG.P4 H7 N7 R7)
    as (dv8 & f7 & H8 & F7 & G7 & E7).
  assert (N8 : In REG.P5 coefficient_registers) by (cbn; tauto).
  pose proof (Hrange REG.P5 N8) as R8.
  destruct (init_step_signed Dev xchg I regs Hfile dv8 REG.P5 H8 N8 R8)
    as (dv9 & f8 & H9 & F8 & G8 & E8).
  assert (N9 : In REG.P6 coefficient_registers) by (cbn; tauto).
  pose proof (Hrange REG.P6 N9) as R9.
  destruct (init_step_signed Dev xchg I regs Hfile dv9 REG.P6 H9 N9 R9)
    as (dv10 & f9 & H10 & F9 & G9 & E9).
  assert (N10 : In REG.P7 coefficient_registers) by (cbn; tauto).
  pose proof (Hrange REG.P7 N10) as R10.
  destruct (init_step_signed Dev xchg I regs Hfile dv10 REG.P7 H10 N10 R10)
    as (dv11 & f10 & H11 & F10 & G10 & E10).
  assert (N11 : In REG.P8 coefficient_registers) by (cbn; tauto).
  pose proof (Hrange REG.P8 N11) as R11.
  destruct (init_step_signed Dev xchg I regs Hfile dv11 REG.P8 H11 N11 R11)
    as (dv12 & f11 & H12 & F11 & G11 & E11).
  assert (N12 : In REG.P9 coefficient_registers) by (cbn; tauto).
  pose proof (Hrange REG.P9 N12) as R12.
  destruct (init_step_signed Dev xchg I regs Hfile dv12 REG.P9 H12 N12 R12)
    as (dv13 & f12 & H13 & F12 & G12 & E12).
  exists (mkDriver None None f1 f2 f3 f4 f5 f6 f7 f8 f9 f10 f11 f12).
  eexists. split; [|split; [|split; [|split; [|split; [|split]]]]];
    [ | | | reflexivity | reflexivity | | ].
  - unfold __init__.
    step (readU8_some Dev xchg (mkBus dv0 l) REG.ID REG.ID_VAL [] dv1 Hid).
    rewrite Z.eqb_refl. cbn [negb].
    repeat (erewrite bind_ok;
            [| first [ apply lift_ok; eassumption
                     | match goal with
                       | E : forall l0, _ = _ |- _ => apply E
                       end ] ]).
    reflexivity.
  - exact H13.
  - cbn [log]. unfold init_reads, coefficient_registers. cbn [map].
    rewrite <- !app_assoc. reflexivity.
  - cbn [coefficients map coefficient_registers
         _dig_T1 _dig_T2 _dig_T3 _dig_P1 _dig_P2 _dig_P3 _dig_P4 _dig_P5
         _dig_P6 _dig_P7 _dig_P8 _dig_P9].
    rewrite F1, F2, F3, F4, F5, F6, F7, F8, F9, F10, F11, F12. reflexivity.
  - cbn [coefficients map coefficient_registers
         _dig_T1 _dig_T2 _dig_T3 _dig_P1 _dig_P2 _dig_P3 _dig_P4 _dig_P5
         _dig_P6 _dig_P7 _dig_P8 _dig_P9].
    rewrite G1, G2, G3, G4, G5, G6, G7, G8, G9, G10, G11, G12. reflexivity.
Qed.

End Calibration.

(** ** The property reads *)

Section Properties.
Variable Dev : Type.
Variable xchg : Dev -> list Z -> Z -> option (list Z) * Dev.

Lemma accessor_call_nothing (c : call) (st : bus Dev * driver) :
  is_accessor c = true -> run_call xchg c st = st.
Proof.
  destruct c; cbn [is_accessor run_call]; try discriminate; intros _;
    try reflexivity.
  unfold mbar, bind, get_self. cbn [fst snd].
  destruct (_press (snd st)); reflexivity.
Qed.

(** Reading [temperature], [pressure], [mbar] and [comp], in any number
    and order, starts no transaction on the bus and changes nothing of the
    driver, whether the read succeeds or ([mbar] before any measurement)
    raises. *)
Theorem accessors_change_nothing (cs : list call) (st : bus Dev * driver) :
  forallb is_accessor cs = true -> run_calls xchg cs st = st.
Proof.
  revert st. induction cs as [|c cs IH]; intros st H; [reflexivity|].
  cbn [forallb] in H. apply andb_true_iff in H as [Hc Hcs].
  cbn [run_calls fold_left]. rewrite (accessor_call_nothing c st Hc).
  apply IH. exact Hcs.
Qed.

Lemma comp_same_calibration (st st' : bus Dev * driver) :
  same_calibration (snd st) (snd st') -> fst (comp st') = fst (comp st).
Proof.
  unfold same_calibration, coefficients, comp, bind, get_self, ret.
  cbn [fst snd]. intros H. injection H as -> -> -> -> -> -> -> -> -> -> -> ->.
  reflexivity.
Qed.

Lemma run_calls_same_calibration (cs : list call) (st : bus Dev * driver) :
  same_calibration (snd st) (snd (run_calls xchg cs st)).
Proof.
  revert st. induction cs as [|c cs IH]; intros st; [reflexivity|].
  cbn [run_calls fold_left].
  eapply same_calibration_trans;
    [apply run_call_same_calibration | apply IH].
Qed.

(** [comp] always succeeds, lists the twelve coefficients under their
    names in the order T1, T2, T3, P1, ..., P9, and gives the same dict
    after any sequence of calls, measurements included. *)
Theorem comp_stable (cs : list call) (st : bus Dev * driver) :
  exists dict,
    fst (comp st) = Ok dict
    /\ fst (comp (run_calls xchg cs st)) = Ok dict
    /\ map snd dict = coefficients (snd st)
    /\ map fst dict
       = ["dig_T1"; "dig_T2"; "dig_T3"; "dig_P1"; "dig_P2"; "dig_P3";
          "dig_P4"; "dig_P5"; "dig_P6"; "dig_P7"; "dig_P8"; "dig_P9"]%string.
Proof.
  eexists. split; [reflexivity|]. split; [|split; reflexivity].
  apply comp_same_calibration. apply run_calls_same_calibration.
Qed.

End Properties.

(** ** Instances on the scripted sensors *)

Lemma read16_round_trip_witness :
  _readS16 Mock.xchg REG.P2 (Mock.fresh 0x58 [])
  = (Ok (-10685), mkBus (Mock.datasheet 0x58 []) [Xfer [0x90] 2]).
Proof.
  apply (read16_round_trip Mock.t Mock.xchg (Mock.fresh 0x58 []) REG.P2
           (-10685) (Mock.datasheet 0x58 []));
    [reflexivity | lia].
Defined.

Lemma read24_round_trip_witness :
  exists f,
    _readU24 Mock.xchg REG.PRESS_MSB (Mock.fresh 0x58 [])
    = (Ok f, mkBus (Mock.datasheet 0x58 []) [Xfer [0xF7] 3])
    /\ py_float 415148 = Ok f
    /\ py_int f = Ok 415148.
Proof.
  apply (read24_round_trip Mock.t Mock.xchg (Mock.fresh 0x58 [])
           REG.PRESS_MSB 415148 0 (Mock.datasheet 0x58 []));
    [lia | lia | reflexivity].
Defined.

Lemma short_response_IndexError_witness :
  fst (_readU24 Mock.xchg REG.PRESS_MSB (mkBus short_pressure_sensor []))
  = Raise IndexError.
Proof.
  apply (proj2 (proj2 (short_response_IndexError Mock.t Mock.xchg
                         (mkBus short_pressure_sensor []) REG.PRESS_MSB 3
                         [0x65; 0x5A] short_pressure_sensor eq_refl))
           eq_refl).
  cbn. lia.
Defined.

Lemma read_success_witness :
  read Mock.xchg 1 (Mock.fresh 0x58 [], datasheet_driver)
  = (Ok (RPair (Some (128422 / 5120.0)%float)
               (Some (pressure_after_guard datasheet_driver 128422 415148))),
     (mkBus (Mock.datasheet 0x58 [])
        [Xfer [0x74; 0xFE] 0; Xfer [0xF3] 1; Xfer [0xFA] 3; Xfer [0xF7] 3],
      set_press
        (Some (pressure_after_guard datasheet_driver 128422 415148))
        (set_temp (Some (128422 / 5120.0)%float) datasheet_driver))).
Proof.
  apply (read_success Mock.t Mock.xchg
           (Mock.fresh 0x58 [])
           (mkBus (Mock.datasheet 0x58 []) [Xfer [0x74; 0xFE] 0])
           (mkBus (Mock.datasheet 0x58 [])
              [Xfer [0x74; 0xFE] 0; Xfer [0xF3] 1])
           (mkBus (Mock.datasheet 0x58 [])
              [Xfer [0x74; 0xFE] 0; Xfer [0xF3] 1; Xfer [0xFA] 3])
           (mkBus (Mock.datasheet 0x58 [])
              [Xfer [0x74; 0xFE] 0; Xfer [0xF3] 1; Xfer [0xFA] 3;
               Xfer [0xF7] 3])
           datasheet_driver 1 [] 519888%float 415148%float 128422%float
           128422);
    vm_compute; reflexivity.
Defined.

Lemma read_pressure_burst_fails_witness :
  let r := read Mock.xchg 1 (mkBus short_pressure_sensor [],
                             degenerate_driver) in
  fst r = Raise IndexError
  /\ temperature (snd r) = (Ok (Some (128422 / 5120.0)%float), snd r)
  /\ pressure (snd r) = (Ok (Some 99000%float), snd r)
  /\ same_calibration degenerate_driver (snd (snd r)).
Proof.
  refine (read_pressure_burst_fails Mock.t Mock.xchg
           (mkBus short_pressure_sensor [])
           (mkBus short_pressure_sensor [Xfer [0x74; 0xFE] 0])
           (mkBus short_pressure_sensor
              [Xfer [0x74; 0xFE] 0; Xfer [0xF3] 1])
           (mkBus short_pressure_sensor
              [Xfer [0x74; 0xFE] 0; Xfer [0xF3] 1; Xfer [0xFA] 3])
           (mkBus short_pressure_sensor
              [Xfer [0x74; 0xFE] 0; Xfer [0xF3] 1; Xfer [0xFA] 3;
               Xfer [0xF7] 3])
           degenerate_driver 1 [] 519888%float 128422%float 128422
           _ _ _ _ _ IndexError _);
    vm_compute; reflexivity.
Defined.

Lemma read_never_gives_up_witness :
  let r := read Mock.xchg 2 (mkBus stuck_sensor [], datasheet_driver) in
  fst r = Diverge
  /\ snd (snd r) = datasheet_driver
  /\ log (fst (snd r))
     = [Xfer [0x74; 0xFE] 0; Xfer [0xF3] 1; Sleep 0.01%float;
        Xfer [0xF3] 1; Sleep 0.01%float].
Proof.
  apply (read_never_gives_up Mock.t Mock.xchg (fun m => m = stuck_sensor)
           (mkBus stuck_sensor []) datasheet_driver [] stuck_sensor 2).
  - intros dv ->. exists 0x08, [], stuck_sensor.
    split; [reflexivity|]. split; [discriminate | reflexivity].
  - reflexivity.
  - reflexivity.
Defined.

Lemma init_decodes_calibration_witness :
  exists d b',
    __init__ Mock.xchg (Mock.fresh 0x58 []) = (Ok d, b')
    /\ b' = mkBus (Mock.datasheet 0x58 []) init_reads
    /\ map py_float [27504; 26435; -1000; 36477; -10685; 3024; 2855; 140;
                     -7; 15500; -14600; 6000]
       = map Ok (coefficients d)
    /\ map py_int (coefficients d)
       = map Ok [27504; 26435; -1000; 36477; -10685; 3024; 2855; 140; -7;
                 15500; -14600; 6000].
Proof.
  destruct (init_decodes_calibration Mock.t Mock.xchg
              (fun m => m = Mock.datasheet 0x58 []) datasheet_value
              (Mock.fresh 0x58 []))
    as (d & b' & E & HI & L & _ & _ & F & C).
  - split.
    + intros dv ->. exists (Mock.datasheet 0x58 []). split; reflexivity.
    + intros dv r -> Hr. exists (Mock.datasheet 0x58 []).
      cbn in Hr. decompose [or] Hr; subst; try contradiction;
        split; reflexivity.
  - reflexivity.
  - intros r Hr. cbn in Hr. decompose [or] Hr; subst; try contradiction;
      vm_compute; split; discriminate.
  - exists d, b'. split; [exact E|]. split; [|split; [exact F | exact C]].
    destruct b' as [dv' l']. cbn in HI, L. subst. reflexivity.
Defined.

Lemma accessors_change_nothing_witness :
  run_calls Mock.xchg [CallMbar; CallComp; CallTemperature; CallPressure]
            (Mock.fresh 0x58 [], datasheet_driver)
  = (Mock.fresh 0x58 [], datasheet_driver).
Proof.
  apply (accessors_change_nothing Mock.t Mock.xchg
           [CallMbar; CallComp; CallTemperature; CallPressure]
           (Mock.fresh 0x58 [], datasheet_driver)).
  reflexivity.
Defined.

(** ** Measurements and the cache *)

Section CacheIndependence.
Variable Dev : Type.
Variable xchg : Dev -> list Z -> Z -> option (list Z) * Dev.

(** What is cached never influences a measurement: on two drivers with the
    same calibration set, whatever they have cached, [read] returns the
    same value (or raises the same exception), exchanges the same bytes
    with the sensor and leaves it in the same state. *)
Theorem read_ignores_cache (fuel : nat) (b : bus Dev) (d1 d2 : driver) :
  same_calibration d1 d2 ->
  fst (read xchg fuel (b, d1)) = fst (read xchg fuel (b, d2))
  /\ fst (snd (read xchg fuel (b, d1))) = fst (snd (read xchg fuel (b, d2))).
Proof.
  unfold same_calibration, coefficients. intros H.
  destruct d1 as [t1 p1 T1 T2 T3 P1 P2 P3 P4 P5 P6 P7 P8 P9].
  destruct d2 as [t2 p2 T1' T2' T3' P1' P2' P3' P4' P5' P6' P7' P8' P9'].
  cbn in H. injection H as -> -> -> -> -> -> -> -> -> -> -> ->.
  rewrite !read_unfold.
  unfold read_stages, temperature_stage, pressure_stage. cbv zeta.
  destruct (exchange xchg trigger 0 b) as [[r0|e|] b1];
    try (split; reflexivity).
  destruct (poll xchg fuel b1) as [[[]|e|] b2]; try (split; reflexivity).
  destruct (_readU24 xchg REG.TEMP_MSB b2) as [[UT|e|] b3];
    try (split; reflexivity).
  change (temp_sum (mkDriver t2 p2 T1 T2 T3 P1 P2 P3 P4 P5 P6 P7 P8 P9) UT)
    with (temp_sum (mkDriver t1 p1 T1 T2 T3 P1 P2 P3 P4 P5 P6 P7 P8 P9) UT).
  destruct (py_int _) as [t_fine|e|]; try (split; reflexivity).
  destruct (py_float t_fine) as [tf|e|]; try (split; reflexivity).
  destruct (_readU24 xchg REG.PRESS_MSB b3) as [[UP|e|] b4];
    try (split; reflexivity).
  change (guard_var1 (mkDriver t2 p2 T1 T2 T3 P1 P2 P3 P4 P5 P6 P7 P8 P9) tf)
    with (guard_var1 (mkDriver t1 p1 T1 T2 T3 P1 P2 P3 P4 P5 P6 P7 P8 P9) tf).
  destruct (guard_var1 _ tf =? 0)%float; split; reflexivity.
Qed.

End CacheIndependence.

Lemma read_ignores_cache_witness :
  fst (read Mock.xchg 1
         (Mock.fresh 0x58 [], set_press (Some 1%float) datasheet_driver))
  = fst (read Mock.xchg 1 (Mock.fresh 0x58 [], datasheet_driver))
  /\ fst (snd (read Mock.xchg 1
                 (Mock.fresh 0x58 [],
                  set_press (Some 1%float) datasheet_driver)))
     = fst (snd (read Mock.xchg 1 (Mock.fresh 0x58 [], datasheet_driver))).
Proof.
  apply (read_ignores_cache Mock.t Mock.xchg 1 (Mock.fresh 0x58 [])
           (set_press (Some 1%float) datasheet_driver) datasheet_driver).
  reflexivity.
Defined.

Example first_failure_runs :
  first_failure Mock.xchg init_plan (Mock.datasheet 0x58 []) = (13%nat, true)
  /\ first_failure Mock.xchg init_plan (Mock.datasheet 0x60 [])
     = (1%nat, false)
  /\ first_failure Mock.xchg init_plan
       (Mock.mk 0x58 (fun cmd => if cmd =? 0x8E then [0x7D]
                                 else Mock.datasheet_coeff cmd)
                [] 0 [] [])
     = (5%nat, false).
Proof. repeat split; vm_compute; reflexivity. Qed.
